(* Shallow embedding of the coolboy Game Boy emulator core
   (src/emulator/{cartridge,memory,cpu/mod,mod}.rs).

   Conventions of the embedding:
   - u8 / u16 / i16 / i32 / usize values are Z; where the source can wrap or
     overflow, the check is written out.
   - A Rust panic (explicit panic!, out-of-bounds index, arithmetic overflow
     in a debug build) is [None]; a normal return is [Some].
   - Fixed-size arrays ([u8; N] boxes) are total functions Z -> Z, updated
     with [upd]; every index is bounds-checked as Rust does. *)

From Stdlib Require Import ZArith List Bool Lia.
Import ListNotations.
Open Scope Z_scope.

(** Option monad for code that may panic. *)
Notation "'let*' x ':=' m 'in' k" :=
  (match m with Some x => k | None => None end)
  (at level 200, x name, m at level 100, k at level 200).

Definition upd (f : Z -> Z) (i v : Z) : Z -> Z :=
  fun j => if j =? i then v else f j.

(** Rust's half-open range [lo..hi]: empty when [hi <= lo]. *)
Definition rust_range (lo hi : Z) : list Z :=
  if lo <? hi then map (fun k => lo + Z.of_nat k) (seq 0 (Z.to_nat (hi - lo)))
  else [].

(** The [tbit!] and [gbit!] macros of main.rs, on a u8 value; the shift
    [1 << bit] on u8 panics when [bit] is not in 0..8. *)
Definition tbit (value bit : Z) : bool := negb (Z.land value (Z.shiftl 1 bit) =? 0).

Definition gbit (value bit : Z) : option Z :=
  if (bit <? 0) || (8 <=? bit) then None
  else Some (Z.shiftr (Z.land value (Z.shiftl 1 bit)) bit).

(** Checked u8 arithmetic (debug build: overflow panics). *)
Definition u8_add (a b : Z) : option Z := if 255 <? a + b then None else Some (a + b).
Definition u8_mul (a b : Z) : option Z := if 255 <? a * b then None else Some (a * b).

(* ------------------------------------------------------------------------- *)
(** * cartridge.rs *)

Definition CARTRIDGE_SIZE : Z := 0x200000.

(** [Cartridge { data: Box<[u8; CARTRIDGE_SIZE]> }] *)
Record Cartridge := mkCartridge { data : Z -> Z }.

Fixpoint nth_Z (l : list Z) (i : Z) : Z :=
  match l with
  | [] => 0
  | x :: t => if i =? 0 then x else nth_Z t (i - 1)
  end.

(** [Cartridge::from_file] after the file is opened: [bytes] are the bytes
    that [file.read(&mut buffer)] stored into the zero-initialised buffer
    [[0; CARTRIDGE_SIZE]]; the rest of the buffer stays 0. *)
Definition cartridge_from_bytes (bytes : list Z) : Cartridge :=
  mkCartridge (fun i => if (0 <=? i) && (i <? CARTRIDGE_SIZE) then nth_Z bytes i else 0).

(** [Cartridge::read]: panics for [address >= CARTRIDGE_SIZE]. *)
Definition cartridge_read (c : Cartridge) (address : Z) : option Z :=
  if CARTRIDGE_SIZE <=? address then None else Some (data c address).

(* ------------------------------------------------------------------------- *)
(** * memory.rs *)

Definition RBM_ADDRESS : Z := 0x147.
Definition MEMORY_SIZE : Z := 0x10000.
Definition ROM_BANK_SIZE : Z := 0x4000.
Definition RAM_BANK_SIZE : Z := 0x2000.
Definition MAX_RAMBANK : Z := 4.

Inductive RomBankMode := No | MBC1 | MBC2.

Record Memory := mkMemory {
  rom : Z -> Z;                 (* Box<[u8; MEMORY_SIZE]> *)
  cart : Cartridge;
  rom_bank_mode : RomBankMode;
  current_rom_bank : Z;         (* usize *)
  ram_banks : Z -> Z;           (* Box<[u8; MAX_RAMBANK * RAM_BANK_SIZE]> *)
  current_ram_bank : Z;         (* usize *)
  enable_ram : bool;
  enable_rom : bool
}.

Definition set_rom (m : Memory) (r : Z -> Z) : Memory :=
  mkMemory r (cart m) (rom_bank_mode m) (current_rom_bank m) (ram_banks m)
    (current_ram_bank m) (enable_ram m) (enable_rom m).
Definition set_current_rom_bank (m : Memory) (b : Z) : Memory :=
  mkMemory (rom m) (cart m) (rom_bank_mode m) b (ram_banks m)
    (current_ram_bank m) (enable_ram m) (enable_rom m).
Definition set_ram_banks (m : Memory) (r : Z -> Z) : Memory :=
  mkMemory (rom m) (cart m) (rom_bank_mode m) (current_rom_bank m) r
    (current_ram_bank m) (enable_ram m) (enable_rom m).
Definition set_current_ram_bank (m : Memory) (b : Z) : Memory :=
  mkMemory (rom m) (cart m) (rom_bank_mode m) (current_rom_bank m) (ram_banks m)
    b (enable_ram m) (enable_rom m).
Definition set_enable_ram (m : Memory) (e : bool) : Memory :=
  mkMemory (rom m) (cart m) (rom_bank_mode m) (current_rom_bank m) (ram_banks m)
    (current_ram_bank m) e (enable_rom m).
Definition set_enable_rom (m : Memory) (e : bool) : Memory :=
  mkMemory (rom m) (cart m) (rom_bank_mode m) (current_rom_bank m) (ram_banks m)
    (current_ram_bank m) (enable_ram m) e.

(** The register values stored by [Memory::init]. *)
Definition init_values : list (Z * Z) :=
  [(0xFF05, 0x00); (0xFF06, 0x00); (0xFF07, 0x00); (0xFF10, 0x80);
   (0xFF11, 0xBF); (0xFF12, 0xF3); (0xFF14, 0xBF); (0xFF16, 0x3F);
   (0xFF17, 0x00); (0xFF19, 0xBF); (0xFF1A, 0x7F); (0xFF1B, 0xFF);
   (0xFF1C, 0x9F); (0xFF1E, 0xBF); (0xFF20, 0xFF); (0xFF21, 0x00);
   (0xFF22, 0x00); (0xFF23, 0xBF); (0xFF24, 0x77); (0xFF25, 0xF3);
   (0xFF26, 0xF1); (0xFF40, 0x91); (0xFF42, 0x00); (0xFF43, 0x00);
   (0xFF45, 0x00); (0xFF47, 0xFC); (0xFF48, 0xFF); (0xFF49, 0xFF);
   (0xFF4A, 0x00); (0xFF4B, 0x00); (0xFFFF, 0x00)].

Definition init (m : Memory) : Memory :=
  set_rom m (fold_left (fun r av => upd r (fst av) (snd av)) init_values (rom m)).

(** [Memory::from_file], after [Cartridge::from_file] succeeded. *)
Definition memory_from_cartridge (c : Cartridge) : option Memory :=
  let* rbm_byte := cartridge_read c RBM_ADDRESS in
  let* rbm :=
    if rbm_byte =? 0 then Some No
    else if (rbm_byte =? 1) || (rbm_byte =? 2) || (rbm_byte =? 3) then Some MBC1
    else if (rbm_byte =? 5) || (rbm_byte =? 6) then Some MBC2
    else None (* panic!("Unknown ROM Bank Mode Byte {}!") *) in
  Some (init (mkMemory (fun _ => 0) c rbm 0 (fun _ => 0) 0 false false)).

Definition handle_ram_bank_enable (m : Memory) (address data : Z) : Memory :=
  if match rom_bank_mode m with
     | MBC2 => negb (Z.land address 0x10 =? 0)
     | _ => false
     end
  then m
  else
    let lower_nibble := Z.land data 0xF in
    if lower_nibble =? 0xA then set_enable_ram m true
    else if lower_nibble =? 0x0 then set_enable_ram m false
    else m.

Definition handle_change_lo_rom_bank (m : Memory) (data : Z) : Memory :=
  let m := match rom_bank_mode m with
           | MBC2 => set_current_rom_bank m (Z.land data 0xF + 1)
           | _ => m
           end in
  let lower_five := Z.land data 0x1F in
  let b := Z.lor (Z.land (current_rom_bank m) 0xE0) lower_five in
  set_current_rom_bank m (if b =? 0 then b + 1 else b).

Definition handle_change_hi_rom_bank (m : Memory) (data : Z) : Memory :=
  let masked_data := Z.land data 0xE0 in
  let b := Z.lor (Z.land (current_rom_bank m) 0x1F) masked_data in
  set_current_rom_bank m (if b =? 0 then b + 1 else b).

Definition handle_change_ram_bank (m : Memory) (data : Z) : Memory :=
  set_current_ram_bank m (Z.land data 0x3).

Definition handle_change_rom_ram_mode (m : Memory) (data : Z) : Memory :=
  let bit_one := Z.land data 1 in
  let m := set_enable_rom m (bit_one =? 0) in
  if enable_rom m then set_current_ram_bank m 0 else m.

Definition is_mbc (m : Memory) : bool :=
  match rom_bank_mode m with MBC1 | MBC2 => true | No => false end.
Definition is_mbc1 (m : Memory) : bool :=
  match rom_bank_mode m with MBC1 => true | _ => false end.

Definition handle_banking (m : Memory) (address data : Z) : Memory :=
  if (0x0000 <=? address) && (address <=? 0x1FFF) then
    if is_mbc m then handle_ram_bank_enable m address data else m
  else if (0x2000 <=? address) && (address <=? 0x3FFF) then
    if is_mbc m then handle_change_lo_rom_bank m data else m
  else if (0x4000 <=? address) && (address <=? 0x5FFF) then
    if is_mbc1 m then
      (if enable_rom m then handle_change_hi_rom_bank m data
       else handle_change_ram_bank m data)
    else m
  else if (0x6000 <=? address) && (address <=? 0x7FFF) then
    if is_mbc1 m then handle_change_rom_ram_mode m data else m
  else m.

(** [Memory::write].  The echo arm calls [write] again on [address - 0x2000],
    which lies in 0xC000..=0xDDFF and so reaches the last arm; [depth] bounds
    that self-call, and [mem_write] gives it the one level it needs. *)
Fixpoint mem_write_depth (depth : nat) (m : Memory) (address data : Z) : option Memory :=
  if MEMORY_SIZE <=? address then None
  else if (0x0000 <=? address) && (address <=? 0x7FFF) then
    Some (handle_banking m address data)
  else if (0xA000 <=? address) && (address <=? 0xBFFF) then
    if enable_ram m then
      let translated := (address - 0xA000) + current_ram_bank m * RAM_BANK_SIZE in
      if MAX_RAMBANK * RAM_BANK_SIZE <=? translated then None
      else Some (set_ram_banks m (upd (ram_banks m) translated data))
    else Some m
  else if (0xE000 <=? address) && (address <=? 0xFDFF) then
    match depth with
    | O => None
    | S d => mem_write_depth d (set_rom m (upd (rom m) address data)) (address - 0x2000) data
    end
  else if (0xFEA0 <=? address) && (address <=? 0xFEFE) then
    Some m (* warn!: restricted *)
  else if address =? 0xFF04 then Some (set_rom m (upd (rom m) address 0))
  else if address =? 0xFF44 then Some (set_rom m (upd (rom m) address 0))
  else Some (set_rom m (upd (rom m) address data)).

Definition mem_write (m : Memory) (address data : Z) : option Memory :=
  mem_write_depth 1 m address data.

(** [Memory::write_force]: direct store, bounds-checked by the array. *)
Definition write_force (m : Memory) (address data : Z) : option Memory :=
  if MEMORY_SIZE <=? address then None else Some (set_rom m (upd (rom m) address data)).

(** [Memory::read] *)
Definition mem_read (m : Memory) (address : Z) : option Z :=
  if MEMORY_SIZE <=? address then None
  else if (0x4000 <=? address) && (address <=? 0x7FFF) then
    cartridge_read (cart m) ((address - 0x4000) + current_rom_bank m * ROM_BANK_SIZE)
  else if (0xA000 <=? address) && (address <=? 0xBFFF) then
    let translated := (address - 0xA000) + current_ram_bank m * RAM_BANK_SIZE in
    if MAX_RAMBANK * RAM_BANK_SIZE <=? translated then None
    else Some (ram_banks m translated)
  else Some (rom m address).

(* ------------------------------------------------------------------------- *)
(** * cpu/mod.rs *)

(** [Cpu { registers, pc, sp }]; the [registers] field (registers.rs, not
    part of the sources) is read by none of the code embedded here. *)
Record Cpu := mkCpu { pc : Z; sp : Z }.

Definition cpu_new : Cpu := mkCpu 0 0xFFFE.

(** [Cpu::execute(&self, memory)]: the body is [return 0;] and touches
    neither the CPU nor the memory. *)
Definition cpu_execute (c : Cpu) (m : Memory) : Z := 0.

(* ------------------------------------------------------------------------- *)
(** * mod.rs *)

Definition TIMER_ADDRESS : Z := 0xFF05.
Definition TIMER_MODULATOR : Z := 0xFF06.
Definition TIMER_CONTROLLER : Z := 0xFF07.
Definition DIVIDER_REGISTER : Z := 0xFF04.
Definition INTERRUPT_REQUEST : Z := 0xFF0F.
Definition INTERRUPT_ENABLED : Z := 0xFFFF.
Definition SCANLINE_ADDRESS : Z := 0xFF44.
Definition LCD_CONTROL_ADDRESS : Z := 0xFF40.
Definition DMA_ADDRESS : Z := 0xFF46.
Definition PALETTE_48_ADDRESS : Z := 0xFF48.
Definition PALETTE_49_ADDRESS : Z := 0xFF49.
Definition SPRITE_ATTRIBUTE_TABLE : Z := 0xFE00.
Definition SPRITE_DATA_ADDRESS : Z := 0x8000.
Definition KEY_ADDRESS : Z := 0xFF00.

Inductive Interrupt := VBlank | LCD | Timer | Joypad.

(** The enum discriminants. *)
Definition interrupt_bits (i : Interrupt) : Z :=
  match i with VBlank => 0x01 | LCD => 0x02 | Timer => 0x04 | Joypad => 0x10 end.

Definition ALL_INTERRUPTS : list Interrupt := [VBlank; LCD; Timer; Joypad].

Inductive Color := White | LightGrey | DarkGrey | Black.

Definition rgb (c : Color) : Z * Z * Z :=
  let value := match c with
               | White => 0xFF | LightGrey => 0xCC | DarkGrey => 0x77 | Black => 0x00
               end in (value, value, value).

(** [Inputs] is a bitflags u8. *)
Definition RIGHT : Z := 0x01.
Definition LEFT : Z := 0x02.
Definition UP : Z := 0x04.
Definition DOWN : Z := 0x08.
Definition A : Z := 0x10.
Definition B : Z := 0x20.
Definition SELECT : Z := 0x40.
Definition START : Z := 0x80.

Definition ALL_INPUTS : list Z := [RIGHT; LEFT; UP; DOWN; A; B; SELECT; START].

Definition bit_location (input : Z) : Z :=
  if (input =? RIGHT) || (input =? A) then 0
  else if (input =? LEFT) || (input =? B) then 1
  else if (input =? UP) || (input =? SELECT) then 2
  else if (input =? DOWN) || (input =? START) then 3
  else 7.

Definition select_location (input : Z) : Z :=
  if (input =? RIGHT) || (input =? LEFT) || (input =? UP) || (input =? DOWN) then 4
  else if (input =? A) || (input =? B) || (input =? SELECT) || (input =? START) then 5
  else 7.

Record Emulator := mkEmulator {
  cpu : Cpu;
  memory : Memory;
  timer_counter : Z;                    (* i32 *)
  divider_counter : Z;                  (* i32 *)
  interrupt_master : bool;
  scanline_count : Z;                   (* u16 *)
  screen_buffer : Z -> Z -> Z -> Z;     (* [[[u8; 3]; 144]; 160] *)
  pressed_inputs : Z                    (* Inputs *)
}.

Definition set_cpu (e : Emulator) (c : Cpu) : Emulator :=
  mkEmulator c (memory e) (timer_counter e) (divider_counter e)
    (interrupt_master e) (scanline_count e) (screen_buffer e) (pressed_inputs e).
Definition set_memory (e : Emulator) (m : Memory) : Emulator :=
  mkEmulator (cpu e) m (timer_counter e) (divider_counter e)
    (interrupt_master e) (scanline_count e) (screen_buffer e) (pressed_inputs e).
Definition set_timer_counter (e : Emulator) (t : Z) : Emulator :=
  mkEmulator (cpu e) (memory e) t (divider_counter e)
    (interrupt_master e) (scanline_count e) (screen_buffer e) (pressed_inputs e).
Definition set_divider_counter (e : Emulator) (d : Z) : Emulator :=
  mkEmulator (cpu e) (memory e) (timer_counter e) d
    (interrupt_master e) (scanline_count e) (screen_buffer e) (pressed_inputs e).
Definition set_interrupt_master (e : Emulator) (b : bool) : Emulator :=
  mkEmulator (cpu e) (memory e) (timer_counter e) (divider_counter e)
    b (scanline_count e) (screen_buffer e) (pressed_inputs e).
Definition set_screen_buffer (e : Emulator) (s : Z -> Z -> Z -> Z) : Emulator :=
  mkEmulator (cpu e) (memory e) (timer_counter e) (divider_counter e)
    (interrupt_master e) (scanline_count e) s (pressed_inputs e).
Definition set_pressed_inputs (e : Emulator) (p : Z) : Emulator :=
  mkEmulator (cpu e) (memory e) (timer_counter e) (divider_counter e)
    (interrupt_master e) (scanline_count e) (screen_buffer e) p.

(** [Emulator::from_file], after [Memory::from_file]. *)
Definition emulator_from_cartridge (c : Cartridge) : option Emulator :=
  let* m := memory_from_cartridge c in
  Some (mkEmulator cpu_new m 0 0 true 0 (fun _ _ _ => 0) 0).

(** [Emulator::joypad_state] *)
Definition joypad_state (e : Emulator) : option Z :=
  let* old_state := mem_read (memory e) KEY_ADDRESS in
  let active_select := if tbit old_state 4 then 5 else 4 in
  let new_state := Z.land 0xFF (Z.lxor (Z.shiftl 1 active_select) 0xFF) in
  Some (fold_left
          (fun st input =>
             if (select_location input =? active_select)
                && (Z.land (pressed_inputs e) input =? input)
             then Z.land st (Z.lxor (Z.shiftl 1 (bit_location input)) 0xFF)
             else st)
          ALL_INPUTS new_state).

(** [Emulator::read_memory] *)
Definition read_memory (e : Emulator) (address : Z) : option Z :=
  if address =? 0xFF00 then joypad_state e else mem_read (memory e) address.

Definition get_clock_freq (e : Emulator) : option Z :=
  let* b := read_memory e TIMER_CONTROLLER in Some (Z.land b 3).

Definition clock_enabled (e : Emulator) : option bool :=
  let* b := read_memory e TIMER_CONTROLLER in Some (negb (Z.land b 4 =? 0)).

Definition set_clock_freq (e : Emulator) : option Emulator :=
  let* f := get_clock_freq e in
  let* t := if f =? 0 then Some 1024 else if f =? 1 then Some 16
            else if f =? 2 then Some 64 else if f =? 3 then Some 256
            else None (* unreachable!() *) in
  Some (set_timer_counter e t).

(** [Emulator::write_memory] with [dma_transfer] inlined in its arm.  The
    DMA loop writes to 0xFE00..0xFEA0, which reaches the last arm; [depth]
    bounds that nested call and [write_memory] gives it the level it needs. *)
Fixpoint write_memory_depth (depth : nat) (e : Emulator) (address data : Z) : option Emulator :=
  if address =? TIMER_CONTROLLER then
    let* current_freq := get_clock_freq e in
    let* m := mem_write (memory e) address data in
    let e := set_memory e m in
    let* new_freq := get_clock_freq e in
    if negb (current_freq =? new_freq) then set_clock_freq e else Some e
  else if address =? DMA_ADDRESS then
    match depth with
    | O => None
    | S d =>
        let src := Z.shiftl data 8 in
        fold_left
          (fun acc i =>
             let* e := acc in
             let* b := read_memory e (src + i) in
             write_memory_depth d e (0xFE00 + i) b)
          (rust_range 0 0xA0) (Some e)
    end
  else
    let* m := mem_write (memory e) address data in Some (set_memory e m).

Definition write_memory (e : Emulator) (address data : Z) : option Emulator :=
  write_memory_depth 1 e address data.

Definition request_interrupt (e : Emulator) (i : Interrupt) : option Emulator :=
  let* req := read_memory e INTERRUPT_REQUEST in
  write_memory e INTERRUPT_REQUEST (Z.lor req (interrupt_bits i)).

Definition interrupt_vector (i : Interrupt) : Z :=
  match i with VBlank => 0x40 | LCD => 0x48 | Timer => 0x50 | Joypad => 0x60 end.

(** [Emulator::service_interrupt]; [push_stack16] has an empty body. *)
Definition service_interrupt (e : Emulator) (i : Interrupt) : option Emulator :=
  let e := set_interrupt_master e false in
  let* req := read_memory e INTERRUPT_REQUEST in
  let req_unset := Z.land req (Z.lxor (interrupt_bits i) 0xFF) in
  let* e := write_memory e INTERRUPT_REQUEST req_unset in
  Some (set_cpu e (mkCpu (interrupt_vector i) (sp (cpu e)))).

(** The test of [handle_interrupts]:
    [((req | *interrupt as u8) != 0) && ((enabled | *interrupt as u8) != 0)]. *)
Definition service_condition (req enabled : Z) (i : Interrupt) : bool :=
  negb (Z.lor req (interrupt_bits i) =? 0) && negb (Z.lor enabled (interrupt_bits i) =? 0).

(** [Emulator::handle_interrupts] *)
Definition handle_interrupts (e : Emulator) : option Emulator :=
  if interrupt_master e then
    let* req := read_memory e INTERRUPT_REQUEST in
    let* enabled := read_memory e INTERRUPT_ENABLED in
    fold_left
      (fun acc i =>
         let* e := acc in
         if service_condition req enabled i then service_interrupt e i else Some e)
      ALL_INTERRUPTS (Some e)
  else Some e.

(** [Emulator::handle_divider_register] *)
Definition handle_divider_register (e : Emulator) (cycles : Z) : option Emulator :=
  let e := set_divider_counter e (divider_counter e + cycles) in
  if 255 <=? divider_counter e then
    let e := set_divider_counter e 0 in
    let* byte := read_memory e DIVIDER_REGISTER in
    let* m := write_force (memory e) DIVIDER_REGISTER byte in
    Some (set_memory e m)
  else Some e.

(** [Emulator::update_timers] *)
Definition update_timers (e : Emulator) (cycles : Z) : option Emulator :=
  let* e := handle_divider_register e cycles in
  let* en := clock_enabled e in
  if en then
    let e := set_timer_counter e (timer_counter e - cycles) in
    if timer_counter e <=? 0 then
      let* e := set_clock_freq e in
      let* value := read_memory e TIMER_ADDRESS in
      if value =? 0xFF then
        let* e := write_memory e TIMER_ADDRESS 0xFF in
        request_interrupt e Timer
      else write_memory e TIMER_ADDRESS (value + 1)
    else Some e
  else Some e.

(** [Emulator::input_down] *)
Definition input_down (e : Emulator) (input : Z) : option Emulator :=
  let was_unset := negb (Z.land (pressed_inputs e) input =? 0) in
  let e := set_pressed_inputs e (Z.lor (pressed_inputs e) input) in
  let* keys := mem_read (memory e) KEY_ADDRESS in
  let need_interrupt := was_unset && tbit keys (select_location input) in
  if need_interrupt then request_interrupt e Joypad else Some e.

(** [Emulator::update]: [while elapsed_cycles < 69905 { elapsed_cycles +=
    self.cpu.execute(&mut self.memory) }].  Big-step semantics of the loop:
    [update_loop e elapsed total] holds when the loop, entered with
    [elapsed_cycles = elapsed], exits with [elapsed_cycles = total].
    [Cpu::execute] takes [&self] and does not change the memory, so the
    emulator state is the same at every iteration. *)
Inductive update_loop (e : Emulator) : Z -> Z -> Prop :=
| update_loop_exit elapsed :
    ~ (elapsed < 69905) -> update_loop e elapsed elapsed
| update_loop_step elapsed total :
    elapsed < 69905 ->
    update_loop e (elapsed + cpu_execute (cpu e) (memory e)) total ->
    update_loop e elapsed total.

(** [Emulator::get_color] *)
Definition get_color (e : Emulator) (color_num address : Z) : option Color :=
  let* palette := read_memory e address in
  let* hl := if color_num =? 0 then Some (1, 0)
             else if color_num =? 1 then Some (3, 2)
             else if color_num =? 2 then Some (5, 4)
             else if color_num =? 3 then Some (7, 6)
             else None (* panic!("Unknown color number") *) in
  let* ghi := gbit palette (fst hl) in
  let* glo := gbit palette (snd hl) in
  let color := Z.lor (Z.shiftl ghi 1) glo in
  if color =? 0 then Some White
  else if color =? 1 then Some LightGrey
  else if color =? 2 then Some DarkGrey
  else if color =? 3 then Some Black
  else None (* unreachable!() *).

(** [self.screen_buffer[x][y][c] = v]; indexing panics outside 160 x 144. *)
Definition screen_write (e : Emulator) (x y c v : Z) : option Emulator :=
  if (x <? 0) || (160 <=? x) || (y <? 0) || (144 <=? y) then None
  else
    let s := screen_buffer e in
    Some (set_screen_buffer e
            (fun x' y' c' => if (x' =? x) && (y' =? y) && (c' =? c) then v else s x' y' c')).

(** Body of the per-pixel loop [for tile_pixel in 7..0] of [render_sprites].
    [pixel as usize] of a negative i16 is a huge index, so it panics like an
    index at or beyond 160. *)
Definition sprite_pixel (scanline pos_x attributes data1 data2 : Z) (flip_x : bool)
    (e : Emulator) (tile_pixel : Z) : option Emulator :=
  let color_bit := if flip_x then - (tile_pixel - 7) else tile_pixel in
  let* g2 := gbit data2 color_bit in
  let* g1 := gbit data1 color_bit in
  let color_num := Z.lor (Z.shiftl g2 1) g1 in
  let color_address := if tbit attributes 4 then PALETTE_49_ADDRESS else PALETTE_48_ADDRESS in
  let* color := get_color e color_num color_address in
  match color with
  | White => Some e
  | _ =>
      let '(red, green, blue) := rgb color in
      let pixel := 7 + pos_x - tile_pixel in
      if (scanline <? 0) || (143 <? scanline) then Some e (* warn! *)
      else
        let* e := screen_write e pixel scanline 0 red in
        let* e := screen_write e pixel scanline 1 green in
        screen_write e pixel scanline 2 blue
  end.

(** Body of the loop [for sprite in 0..40] of [render_sprites].  [pos_y +
    size_y] and [location * 16] are u8 arithmetic. *)
Definition render_sprite (size_y scanline : Z) (acc : option Emulator) (sprite : Z)
    : option Emulator :=
  let* e := acc in
  let base_address := SPRITE_ATTRIBUTE_TABLE + sprite * 4 in
  let* pos_y := read_memory e base_address in
  let* pos_x := read_memory e (base_address + 1) in
  let* location := read_memory e (base_address + 2) in
  let* attributes := read_memory e (base_address + 3) in
  let flip_y := tbit attributes 6 in
  let flip_x := tbit attributes 5 in
  let* intercepts :=
    if pos_y <=? scanline then
      let* bottom := u8_add pos_y size_y in Some (scanline <? bottom)
    else Some false in
  if intercepts then
    let sprite_line := scanline - pos_y in
    let line := if flip_y then 2 * - (sprite_line - size_y) else 2 * sprite_line in
    let* location16 := u8_mul location 16 in
    let address := (SPRITE_DATA_ADDRESS + location16) + line in
    let* data1 := read_memory e address in
    let* data2 := read_memory e (address + 1) in
    fold_left
      (fun acc tile_pixel =>
         let* e := acc in
         sprite_pixel scanline pos_x attributes data1 data2 flip_x e tile_pixel)
      (rust_range 7 0) (Some e)
  else Some e.

(** [Emulator::render_sprites] *)
Definition render_sprites (e : Emulator) : option Emulator :=
  let* lcd_control := read_memory e LCD_CONTROL_ADDRESS in
  let double_height := tbit lcd_control 2 in
  let size_y := if double_height then 16 else 8 in
  let* scanline := read_memory e SCANLINE_ADDRESS in
  fold_left (render_sprite size_y scanline) (rust_range 0 40) (Some e).

(** [Emulator::input_up]: [pressed_inputs &= !input] (bitflags complement
    over the eight defined flags). *)
Definition input_up (e : Emulator) (input : Z) : Emulator :=
  set_pressed_inputs e (Z.land (pressed_inputs e) (Z.lxor input 0xFF)).

Definition LCD_STATUS_ADDRESS : Z := 0xFF41.
Definition LCD_MODE2_BOUND : Z := 376.
Definition LCD_MODE3_BOUND : Z := 204.
Definition SCROLL_Y_ADDRESS : Z := 0xFF42.
Definition SCROLL_X_ADDRESS : Z := 0xFF43.
Definition WINDOW_Y_ADDRESS : Z := 0xFF4A.
Definition WINDOW_X_ADDRESS : Z := 0xFF4B.
Definition PALETTE_47_ADDRESS : Z := 0xFF47.

Definition set_scanline_count (e : Emulator) (n : Z) : Emulator :=
  mkEmulator (cpu e) (memory e) (timer_counter e) (divider_counter e)
    (interrupt_master e) n (screen_buffer e) (pressed_inputs e).

(** [Emulator::lcd_enabled] *)
Definition lcd_enabled (e : Emulator) : option bool :=
  let* byte := read_memory e LCD_CONTROL_ADDRESS in Some (tbit byte 7).

(** [Emulator::set_lcd_status].  In the enabled branch the source computes
    [masked_status] but writes [cncd_status], which is derived from the
    original [status]. *)
Definition set_lcd_status (e : Emulator) : option Emulator :=
  let* status := read_memory e LCD_STATUS_ADDRESS in
  let* enabled := lcd_enabled e in
  if negb enabled then
    let e := set_scanline_count e 456 in
    let* m := write_force (memory e) SCANLINE_ADDRESS 0 in
    let e := set_memory e m in
    let masked_status := Z.lor (Z.land status 0xFC) 0x01 in
    write_memory e LCD_STATUS_ADDRESS masked_status
  else
    let* current_line := read_memory e SCANLINE_ADDRESS in
    let current_mode := Z.land status 0x03 in
    let mode :=
      if 144 <=? current_line then 1
      else if LCD_MODE2_BOUND <=? scanline_count e then 2
      else if LCD_MODE3_BOUND <=? scanline_count e then 3
      else 0 in
    let req_int :=
      if mode <=? 2 then negb (Z.land status (Z.shiftl 1 (3 + mode)) =? 0) else false in
    let* e := if req_int && negb (mode =? current_mode) then request_interrupt e LCD
              else Some e in
    let* game_scanline := read_memory e 0xFF45 in
    let* r :=
      if current_line =? game_scanline then
        let new_status := Z.lor status 0x04 in
        let* e := if negb (Z.land new_status 0x40 =? 0) then request_interrupt e LCD
                  else Some e in
        Some (new_status, e)
      else Some (Z.land status 0xFB, e) in
    write_memory (snd r) LCD_STATUS_ADDRESS (fst r).

(** Body of [for pixel in 0..160] in [render_tiles].  The tile location has
    no 0x8000 / 0x8800 base added, as in the source. *)
Definition render_tile_pixel (using_window signed : bool)
    (window_x scroll_x scanline pos_y background_memory tile_row : Z)
    (acc : option Emulator) (pixel : Z) : option Emulator :=
  let* e := acc in
  let* pos_x := if using_window && (window_x <=? pixel) then Some (pixel - window_x)
                else u8_add pixel scroll_x in
  let tile_column := pos_x / 8 in
  let tile_address := background_memory + tile_row + tile_column in
  let* raw := read_memory e tile_address in
  let tile_num := if signed then (if 128 <=? raw then raw - 256 else raw) else raw in
  let tile_location := if signed then (tile_num + 128) * 16 else tile_num * 16 in
  let line_offset := (pos_y mod 8) * 2 in
  let* data1 := read_memory e (tile_location + line_offset) in
  let* data2 := read_memory e (tile_location + line_offset + 1) in
  let color_bit := - ((pos_x mod 8) - 7) in
  let* g2 := gbit data2 color_bit in
  let* g1 := gbit data1 color_bit in
  let color_num := Z.lor (Z.shiftl g2 1) g1 in
  let* color := get_color e color_num PALETTE_47_ADDRESS in
  let '(red, green, blue) := rgb color in
  if (scanline <? 0) || (143 <? scanline) then Some e (* warn! *)
  else
    let* e := screen_write e pixel scanline 0 red in
    let* e := screen_write e pixel scanline 1 green in
    screen_write e pixel scanline 2 blue.

(** [Emulator::render_tiles]; [tile_data] is computed and never used. *)
Definition render_tiles (e : Emulator) : option Emulator :=
  let* scroll_y := read_memory e SCROLL_Y_ADDRESS in
  let* scroll_x := read_memory e SCROLL_X_ADDRESS in
  let* window_y := read_memory e WINDOW_Y_ADDRESS in
  let* window_x := read_memory e WINDOW_X_ADDRESS in
  let* scanline := read_memory e SCANLINE_ADDRESS in
  let* lcd_control := read_memory e LCD_CONTROL_ADDRESS in
  let using_window := negb (Z.land lcd_control 0x20 =? 0) && (window_y <=? scanline) in
  let signed := negb (tbit lcd_control 4) in
  let background_memory :=
    if (using_window && tbit lcd_control 3) || (negb using_window && tbit lcd_control 6)
    then 0x9C00 else 0x9800 in
  let* pos_y := if using_window then Some (scanline - window_y)
                else u8_add scroll_y scanline in
  let tile_row := (pos_y / 8) * 32 in
  fold_left (render_tile_pixel using_window signed window_x scroll_x scanline pos_y
               background_memory tile_row)
    (rust_range 0 160) (Some e).

(** [Emulator::draw_scanline] *)
Definition draw_scanline (e : Emulator) : option Emulator :=
  let* control := read_memory e LCD_CONTROL_ADDRESS in
  let* e := if tbit control 0 then render_tiles e else Some e in
  if tbit control 1 then render_sprites e else Some e.

(** [Emulator::update_graphics].  [scanline_count] is a u16: the
    subtraction panics when [cycles] exceeds it, and [<= 0] means [== 0];
    [old_line + 1] is u8. *)
Definition update_graphics (e : Emulator) (cycles : Z) : option Emulator :=
  let* e := set_lcd_status e in
  let* enabled := lcd_enabled e in
  if enabled then
    if scanline_count e <? cycles then None
    else
      let e := set_scanline_count e (scanline_count e - cycles) in
      if scanline_count e =? 0 then
        let* old_line := read_memory e SCANLINE_ADDRESS in
        let* new_line := u8_add old_line 1 in
        let* m := write_force (memory e) SCANLINE_ADDRESS new_line in
        let e := set_scanline_count (set_memory e m) 456 in
        if new_line =? 144 then request_interrupt e VBlank
        else if 153 <? new_line then
          let* m := write_force (memory e) SCANLINE_ADDRESS 0 in Some (set_memory e m)
        else if new_line <? 144 then draw_scanline e
        else Some e
      else Some e
  else Some e.

(** Memory states the program can reach: built by [Memory::from_file], then
    changed by [Memory::write] and by [Memory::write_force], which the
    emulator calls only on DIV and LY. *)
Inductive mem_reachable : Memory -> Prop :=
| mem_reachable_new c m :
    memory_from_cartridge c = Some m -> mem_reachable m
| mem_reachable_write m a d m' :
    mem_reachable m -> mem_write m a d = Some m' -> mem_reachable m'
| mem_reachable_force m a d m' :
    mem_reachable m -> (a = DIVIDER_REGISTER \/ a = SCANLINE_ADDRESS) ->
    write_force m a d = Some m' -> mem_reachable m'.

(* ------------------------------------------------------------------------- *)
(** * Concrete images and states *)

(** A cartridge image of [n] bytes given by [f]. *)
Fixpoint image_from (n : nat) (i : Z) (f : Z -> Z) : list Z :=
  match n with O => [] | S n' => f i :: image_from n' (i + 1) f end.

Definition image (n : nat) (f : Z -> Z) : list Z := image_from n 0 f.

(** An image whose header byte 0x147 is [mbc]; byte 0 is 0x11 and byte
    0x4000 (the first byte of ROM bank 1) is 0x22. *)
Definition test_image (mbc : Z) : list Z :=
  image (Z.to_nat 0x4001) (fun i => if i =? 0 then 0x11 else if i =? 0x147 then mbc
                         else if i =? 0x4000 then 0x22 else 0).

Definition test_cart (mbc : Z) : Cartridge := cartridge_from_bytes (test_image mbc).

Definition emu_or_dummy (o : option Emulator) : Emulator :=
  match o with
  | Some e => e
  | None => mkEmulator cpu_new (mkMemory (fun _ => 0) (mkCartridge (fun _ => 0)) No 0
                                  (fun _ => 0) 0 false false) 0 0 true 0 (fun _ _ _ => 0) 0
  end.

(** A freshly constructed emulator on an MBC1 image. *)
Definition emu0 : Emulator := emu_or_dummy (emulator_from_cartridge (test_cart 1)).

(** The fresh emulator after the guest writes TMA = 0xAB, TIMA = 0xFF and
    TAC = 0x05 (timer enabled, 16 T-states per tick). *)
Definition emu_timer : Emulator :=
  emu_or_dummy (let* e := write_memory emu0 TIMER_MODULATOR 0xAB in
                let* e := write_memory e TIMER_ADDRESS 0xFF in
                write_memory e TIMER_CONTROLLER 0x05).

(** The fresh emulator after the guest writes 0x10 to 0xFF00 (bit 5 clear:
    action row selected). *)
Definition emu_key : Emulator := emu_or_dummy (write_memory emu0 KEY_ADDRESS 0x10).

Definition mem_or_dummy (o : option Memory) : Memory :=
  match o with
  | Some m => m
  | None => mkMemory (fun _ => 0) (mkCartridge (fun _ => 0)) No 0 (fun _ => 0) 0 false false
  end.

(** The memory of a freshly constructed MBC1 cartridge (byte 0 is 0x11). *)
Definition mem0 : Memory := mem_or_dummy (memory_from_cartridge (test_cart 1)).

(** Addresses that [Memory::write] and [Memory::read] both send to the plain
    [rom] array, with no special meaning on write. *)
Definition plain_address (a : Z) : Prop :=
  (0x8000 <= a <= 0x9FFF) \/ (0xC000 <= a <= 0xDFFF) \/ (0xFE00 <= a <= 0xFE9F) \/
  (0xFEFF <= a <= 0xFFFF /\ a <> 0xFF04 /\ a <> 0xFF44).

(** The fresh emulator with LY = 143 and 4 T-states left on the line. *)
Definition emu_line143 : Emulator :=
  set_scanline_count
    (set_memory emu0 (set_rom (memory emu0) (upd (rom (memory emu0)) SCANLINE_ADDRESS 143))) 4.


(* ------------------------------------------------------------------------- *)
(** * Register access *)

(** The I/O registers used below live in the plain arm of [Memory::read] and
    [Memory::write]. *)
Lemma read_memory_IF (e : Emulator) :
  read_memory e INTERRUPT_REQUEST = Some (rom (memory e) INTERRUPT_REQUEST).
Proof. reflexivity. Qed.

Lemma read_memory_IE (e : Emulator) :
  read_memory e INTERRUPT_ENABLED = Some (rom (memory e) INTERRUPT_ENABLED).
Proof. reflexivity. Qed.

Lemma write_memory_IF (e : Emulator) (v : Z) :
  write_memory e INTERRUPT_REQUEST v =
  Some (set_memory e (set_rom (memory e) (upd (rom (memory e)) INTERRUPT_REQUEST v))).
Proof. reflexivity. Qed.

(** With OR in place of AND, the test holds for every request and enable
    byte: each [interrupt_bits i] is non-zero. *)
Lemma service_condition_true (req enabled : Z) (i : Interrupt) :
  service_condition req enabled i = true.
Proof.
  unfold service_condition.
  assert (Hb : interrupt_bits i <> 0) by (destruct i; discriminate).
  destruct (Z.lor req (interrupt_bits i) =? 0) eqn:E1;
    [apply Z.eqb_eq, Z.lor_eq_0_iff in E1; tauto |].
  destruct (Z.lor enabled (interrupt_bits i) =? 0) eqn:E2;
    [apply Z.eqb_eq, Z.lor_eq_0_iff in E2; tauto |].
  reflexivity.
Qed.

Lemma service_interrupt_spec (e : Emulator) (i : Interrupt) :
  exists e', service_interrupt e i = Some e' /\
             pc (cpu e') = interrupt_vector i /\ interrupt_master e' = false.
Proof. eexists; split; [reflexivity | split; reflexivity]. Qed.

(* ------------------------------------------------------------------------- *)
(** * Helper lemmas *)

(** With [Cpu::execute] returning 0, the loop of [update] never leaves a
    count below 69905. *)
Lemma update_loop_stuck (e : Emulator) (elapsed total : Z) :
  update_loop e elapsed total -> elapsed < 69905 -> False.
Proof.
  induction 1 as [elapsed Hge | elapsed total Hlt _ IH]; intros Hlt'.
  - exact (Hge Hlt').
  - apply IH. unfold cpu_execute. lia.
Qed.

Lemma nth_Z_nth (l : list Z) (i : Z) : 0 <= i -> nth_Z l i = nth (Z.to_nat i) l 0.
Proof.
  revert i; induction l as [| x t IH]; intros i Hi; simpl.
  - destruct (Z.to_nat i); reflexivity.
  - destruct (Z.eqb_spec i 0) as [-> | Hne]; [reflexivity |].
    rewrite IH by lia.
    replace (Z.to_nat i) with (S (Z.to_nat (i - 1))) by lia.
    reflexivity.
Qed.

(** One iteration of the sprite loop reads memory and runs the empty pixel
    loop: it returns its input state or panics. *)
Lemma render_sprite_same (size_y scanline : Z) (e : Emulator) (sprite : Z) :
  render_sprite size_y scanline (Some e) sprite = Some e \/
  render_sprite size_y scanline (Some e) sprite = None.
Proof.
  unfold render_sprite.
  change (rust_range 7 0) with (@nil Z); cbn [fold_left].
  repeat match goal with
         | |- context [match ?x with Some _ => _ | None => _ end] => destruct x
         | |- context [if ?b then _ else _] => destruct b
         end; auto.
Qed.

Lemma render_sprites_loop_same (size_y scanline : Z) (e : Emulator) (l : list Z) :
  forall acc, (acc = Some e \/ acc = None) ->
  fold_left (render_sprite size_y scanline) l acc = Some e \/
  fold_left (render_sprite size_y scanline) l acc = None.
Proof.
  induction l as [| s l IH]; intros acc Hacc; simpl; [exact Hacc |].
  apply IH. destruct Hacc as [-> | ->].
  - apply render_sprite_same.
  - right; reflexivity.
Qed.

(** The bank-select paths keep [current_rom_bank] at 1 or more. *)
Lemma handle_change_lo_rom_bank_ge1 (m : Memory) (data : Z) :
  0 <= data -> 1 <= current_rom_bank (handle_change_lo_rom_bank m data).
Proof.
  intros Hd. unfold handle_change_lo_rom_bank.
  set (m' := match rom_bank_mode m with
             | MBC2 => set_current_rom_bank m (Z.land data 15 + 1) | _ => m end).
  set (b := Z.lor (Z.land (current_rom_bank m') 224) (Z.land data 31)).
  assert (0 <= b).
  { unfold b. apply Z.lor_nonneg; split; apply Z.land_nonneg; right; lia. }
  simpl. destruct (Z.eqb_spec b 0); lia.
Qed.

Lemma handle_change_hi_rom_bank_ge1 (m : Memory) (data : Z) :
  0 <= data -> 1 <= current_rom_bank (handle_change_hi_rom_bank m data).
Proof.
  intros Hd. unfold handle_change_hi_rom_bank.
  set (b := Z.lor (Z.land (current_rom_bank m) 31) (Z.land data 224)).
  assert (0 <= b).
  { unfold b. apply Z.lor_nonneg; split; apply Z.land_nonneg; right; lia. }
  simpl. destruct (Z.eqb_spec b 0); lia.
Qed.

(* ------------------------------------------------------------------------- *)
(** * Claims *)

(** C1 (code_bug).  [handle_interrupts] tests [req | bit] and
    [enabled | bit], which are non-zero for every byte: for every state with
    IME set it services all four interrupts in turn, whatever IF and IE
    hold, and returns with IME cleared and PC at the Joypad vector 0x60. *)
Theorem handle_interrupts_services_all (e : Emulator) (H : interrupt_master e = true) :
  exists e', handle_interrupts e = Some e' /\
             pc (cpu e') = 0x60 /\ interrupt_master e' = false.
Proof.
  unfold handle_interrupts. rewrite H, read_memory_IF, read_memory_IE.
  cbn [fold_left ALL_INTERRUPTS]. rewrite !service_condition_true.
  destruct (service_interrupt_spec e VBlank) as (e1 & -> & _).
  destruct (service_interrupt_spec e1 LCD) as (e2 & -> & _).
  destruct (service_interrupt_spec e2 Timer) as (e3 & -> & _).
  destruct (service_interrupt_spec e3 Joypad) as (e4 & -> & H4 & H5).
  exists e4. auto.
Qed.

(** Witness of C1: the fresh emulator, with IF = IE = 0. *)
Lemma handle_interrupts_services_all_witness :
  interrupt_master emu0 = true /\
  read_memory emu0 INTERRUPT_REQUEST = Some 0 /\
  read_memory emu0 INTERRUPT_ENABLED = Some 0 /\
  exists e', handle_interrupts emu0 = Some e' /\
             pc (cpu e') = 0x60 /\ interrupt_master e' = false.
Proof.
  split; [vm_compute; reflexivity |].
  split; [vm_compute; reflexivity |].
  split; [vm_compute; reflexivity |].
  apply handle_interrupts_services_all. vm_compute. reflexivity.
Defined.

(** C3 (corrected).  [update] loops while the accumulated count is below
    69905, adding what [Cpu::execute] returns; [Cpu::execute] returns 0 for
    every state, so from every state the loop never exits: [update] does
    not terminate. *)
Theorem update_never_terminates (e : Emulator) (total : Z) :
  ~ update_loop e 0 total.
Proof. intros Hrun. exact (update_loop_stuck e 0 total Hrun ltac:(lia)). Qed.

(** C3 counterexample: no frame of the fresh emulator ever completes, with
    70224 T-states or any other total. *)
Lemma update_frame_counterexample : ~ exists total, update_loop emu0 0 total.
Proof.
  intros [total Hrun]. exact (update_loop_stuck emu0 0 total Hrun ltac:(lia)).
Qed.

(** C4 (code_bug).  [Memory::from_file] starts with [current_rom_bank: 0]:
    right after construction on an MBC1 image, the bank is 0 and reading
    0x4000 returns cartridge byte 0x0000 (0x11), not byte 0x4000 (0x22). *)
Theorem rom_bank_zero_after_construction :
  option_map (fun m => current_rom_bank m) (memory_from_cartridge (test_cart 1)) = Some 0 /\
  option_map (fun m => mem_read m 0x4000) (memory_from_cartridge (test_cart 1)) =
    Some (Some 0x11) /\
  cartridge_read (test_cart 1) 0x0000 = Some 0x11 /\
  cartridge_read (test_cart 1) 0x4000 = Some 0x22.
Proof. vm_compute. repeat split. Qed.

(** C5 (code_bug).  A write to work RAM is not mirrored into echo RAM:
    after write(0xC123, 0x42) on the fresh memory, read(0xC123) is 0x42 but
    read(0xE123) is 0x00. *)
Theorem echo_ram_not_mirrored :
  option_map (fun m => (mem_read m 0xC123, mem_read m 0xE123))
    (mem_write (memory emu0) 0xC123 0x42) = Some (Some 0x42, Some 0x00).
Proof. vm_compute. reflexivity. Qed.

(** C6 (corrected).  [Cartridge::read] on the buffer filled by
    [Cartridge::from_file]: below 0x200000 it returns the loaded byte inside
    the loaded bytes and the zero padding (0x00) beyond them; at or beyond
    0x200000 it panics. *)
Theorem cartridge_read_spec (bytes : list Z) (off : Z) (Hoff : 0 <= off) :
  (off < CARTRIDGE_SIZE -> off < Z.of_nat (length bytes) ->
     cartridge_read (cartridge_from_bytes bytes) off = Some (nth (Z.to_nat off) bytes 0)) /\
  (off < CARTRIDGE_SIZE -> Z.of_nat (length bytes) <= off ->
     cartridge_read (cartridge_from_bytes bytes) off = Some 0) /\
  (CARTRIDGE_SIZE <= off -> cartridge_read (cartridge_from_bytes bytes) off = None).
Proof.
  unfold cartridge_read, cartridge_from_bytes; cbn [data].
  split; [| split]; intros H1; [intros H2 | intros H2 |].
  - rewrite (proj2 (Z.leb_gt _ _) H1).
    rewrite (proj2 (Z.leb_le 0 off) Hoff), (proj2 (Z.ltb_lt _ _) H1).
    rewrite nth_Z_nth by lia. reflexivity.
  - rewrite (proj2 (Z.leb_gt _ _) H1).
    rewrite (proj2 (Z.leb_le 0 off) Hoff), (proj2 (Z.ltb_lt _ _) H1).
    rewrite nth_Z_nth by lia. rewrite nth_overflow by lia. reflexivity.
  - rewrite (proj2 (Z.leb_le _ _) H1). reflexivity.
Qed.

Lemma cartridge_read_spec_witness :
  cartridge_read (cartridge_from_bytes [7; 8; 9]) 1 = Some 8 /\
  cartridge_read (cartridge_from_bytes [7; 8; 9]) 5 = Some 0 /\
  cartridge_read (cartridge_from_bytes [7; 8; 9]) CARTRIDGE_SIZE = None.
Proof.
  destruct (cartridge_read_spec [7; 8; 9] 1 ltac:(lia)) as [H1 _].
  destruct (cartridge_read_spec [7; 8; 9] 5 ltac:(lia)) as [_ [H2 _]].
  destruct (cartridge_read_spec [7; 8; 9] CARTRIDGE_SIZE ltac:(vm_compute; discriminate))
    as [_ [_ H3]].
  split; [| split].
  - apply H1; vm_compute; reflexivity.
  - apply H2; vm_compute; [reflexivity | discriminate].
  - apply H3. vm_compute. discriminate.
Defined.

(** C6 counterexample: on the 0x4001-byte test image, offset 0x4001 (at the
    image length) reads 0x00, not 0xFF, and offset 0x200000 panics. *)
Lemma cartridge_read_counterexample :
  cartridge_read (test_cart 1) 0x4001 = Some 0 /\
  cartridge_read (test_cart 1) CARTRIDGE_SIZE = None.
Proof. vm_compute. split; reflexivity. Qed.

(** A call that returns (does not panic) returns [emu_or_dummy] of its
    result; deciding that it returns only evaluates the constructor. *)
Lemma returns_emu_or_dummy (o : option Emulator) :
  option_map (fun _ => tt) o = Some tt -> o = Some (emu_or_dummy o).
Proof. destruct o; simpl; congruence. Qed.

Lemma read_memory_DIV (e : Emulator) :
  read_memory e DIVIDER_REGISTER = Some (rom (memory e) DIVIDER_REGISTER).
Proof. reflexivity. Qed.

Lemma write_memory_TIMA (e : Emulator) (v : Z) :
  write_memory e TIMER_ADDRESS v =
  Some (set_memory e (set_rom (memory e) (upd (rom (memory e)) TIMER_ADDRESS v))).
Proof. reflexivity. Qed.

Lemma request_interrupt_eq (e : Emulator) (i : Interrupt) :
  request_interrupt e i =
  Some (set_memory e (set_rom (memory e) (upd (rom (memory e)) INTERRUPT_REQUEST
          (Z.lor (rom (memory e) INTERRUPT_REQUEST) (interrupt_bits i))))).
Proof. unfold request_interrupt. rewrite read_memory_IF. apply write_memory_IF. Qed.

(** [handle_divider_register] stores back the byte it read. *)
Lemma handle_divider_register_DIV (e e' : Emulator) (cycles : Z) :
  handle_divider_register e cycles = Some e' ->
  rom (memory e') DIVIDER_REGISTER = rom (memory e) DIVIDER_REGISTER.
Proof.
  unfold handle_divider_register. cbn [divider_counter set_divider_counter].
  destruct (255 <=? divider_counter e + cycles); intros H.
  - rewrite read_memory_DIV in H. cbn in H. injection H as <-.
    reflexivity.
  - injection H as <-. reflexivity.
Qed.

Lemma set_clock_freq_memory (e e' : Emulator) :
  set_clock_freq e = Some e' -> memory e' = memory e.
Proof.
  unfold set_clock_freq. destruct (get_clock_freq e) as [f |]; [| discriminate].
  destruct (f =? 0); [| destruct (f =? 1); [| destruct (f =? 2); [| destruct (f =? 3)]]];
    intros H; try discriminate; injection H as <-; reflexivity.
Qed.

(** C2 (code_bug).  On TIMA overflow [update_timers] writes 0xFF back into
    TIMA instead of TMA: from [emu_timer] (TMA = 0xAB, TIMA = 0xFF, timer
    enabled, one tick due in 16 T-states), advancing 16 T-states leaves TIMA
    at 0xFF (not 0xAB) while it does set IF bit 2. *)
Theorem timer_overflow_reloads_ff :
  read_memory emu_timer TIMER_MODULATOR = Some 0xAB /\
  read_memory emu_timer TIMER_ADDRESS = Some 0xFF /\
  clock_enabled emu_timer = Some true /\
  timer_counter emu_timer = 16 /\
  option_map (fun e => (read_memory e TIMER_ADDRESS,
                        option_map (fun f => Z.testbit f 2) (read_memory e INTERRUPT_REQUEST)))
    (update_timers emu_timer 16) = Some (Some 0xFF, Some true).
Proof. vm_compute. repeat split. Qed.

(** C7 (corrected).  Constructing the memory, and so the emulator, panics
    (no error value is returned) exactly when the byte at 0x147 is not one
    of 0x00, 0x01, 0x02, 0x03, 0x05, 0x06. *)
Theorem from_cartridge_panics_iff (c : Cartridge) :
  emulator_from_cartridge c = None <-> ~ In (data c RBM_ADDRESS) [0; 1; 2; 3; 5; 6].
Proof.
  unfold emulator_from_cartridge, memory_from_cartridge, cartridge_read.
  cbn -[data]. set (x := data c RBM_ADDRESS).
  destruct (Z.eqb_spec x 0), (Z.eqb_spec x 1), (Z.eqb_spec x 2),
    (Z.eqb_spec x 3), (Z.eqb_spec x 5), (Z.eqb_spec x 6);
    cbn [orb In]; split; intros H; try discriminate; try reflexivity;
    try (exfalso; apply H; simpl; lia); intuition lia.
Qed.

(** C7 counterexample: an image with byte 0x04 at 0x147 makes construction
    panic instead of returning an UnsupportedMBC error. *)
Lemma from_cartridge_counterexample : emulator_from_cartridge (test_cart 4) = None.
Proof. vm_compute. reflexivity. Qed.

(** C8 (code_bug).  [handle_divider_register] writes back the byte it read
    from DIV, so no call of [update_timers], whatever the number of T-states,
    changes the value read at 0xFF04. *)
Theorem update_timers_keeps_DIV (e e' : Emulator) (cycles : Z)
    (H : update_timers e cycles = Some e') :
  read_memory e' DIVIDER_REGISTER = read_memory e DIVIDER_REGISTER.
Proof.
  rewrite !read_memory_DIV. f_equal.
  unfold update_timers in H.
  destruct (handle_divider_register e cycles) as [e1 |] eqn:E1; [| discriminate].
  apply handle_divider_register_DIV in E1. rewrite <- E1.
  destruct (clock_enabled e1) as [[|] |]; [| injection H as <-; reflexivity | discriminate].
  cbn [timer_counter set_timer_counter] in H.
  destruct (timer_counter e1 - cycles <=? 0); [| injection H as <-; reflexivity].
  destruct (set_clock_freq (set_timer_counter e1 (timer_counter e1 - cycles))) as [e2 |] eqn:E2;
    [| discriminate].
  apply set_clock_freq_memory in E2. cbn [memory set_timer_counter] in E2.
  destruct (read_memory e2 TIMER_ADDRESS) as [v |]; [| discriminate].
  destruct (v =? 255).
  - rewrite write_memory_TIMA in H. cbn -[request_interrupt] in H.
    rewrite request_interrupt_eq in H. injection H as <-. cbn.
    rewrite E2. reflexivity.
  - rewrite write_memory_TIMA in H. injection H as <-. cbn. rewrite E2. reflexivity.
Qed.

(** Witness of C8: 256 T-states on the fresh emulator leave DIV at 0. *)
Lemma update_timers_keeps_DIV_witness :
  read_memory emu0 DIVIDER_REGISTER = Some 0 /\
  read_memory (emu_or_dummy (update_timers emu0 256)) DIVIDER_REGISTER = Some 0.
Proof.
  assert (H : update_timers emu0 256 = Some (emu_or_dummy (update_timers emu0 256)))
    by (apply returns_emu_or_dummy; vm_compute; reflexivity).
  assert (H0 : read_memory emu0 DIVIDER_REGISTER = Some 0) by (vm_compute; reflexivity).
  split; [exact H0 |].
  rewrite (update_timers_keeps_DIV emu0 _ 256 H). exact H0.
Defined.

(** C9 (code_bug).  [input_down] computes [was_unset] as "the button is
    already pressed": pressing a button that is not in the pressed mask only
    adds it to the mask, and raises no interrupt, whatever row 0xFF00
    selects. *)
Theorem input_down_fresh_press_no_irq (e : Emulator) (input : Z)
    (H : Z.land (pressed_inputs e) input = 0) :
  input_down e input = Some (set_pressed_inputs e (Z.lor (pressed_inputs e) input)).
Proof. unfold input_down. rewrite H. reflexivity. Qed.

(** Witness of C9: action row selected (0xFF00 = 0x10), nothing pressed,
    press A: IF is left unchanged. *)
Lemma input_down_fresh_press_no_irq_witness :
  mem_read (memory emu_key) KEY_ADDRESS = Some 0x10 /\
  Z.land (pressed_inputs emu_key) A = 0 /\
  input_down emu_key A = Some (set_pressed_inputs emu_key (Z.lor (pressed_inputs emu_key) A)).
Proof.
  split; [vm_compute; reflexivity |].
  assert (H : Z.land (pressed_inputs emu_key) A = 0) by (vm_compute; reflexivity).
  split; [exact H | exact (input_down_fresh_press_no_irq emu_key A H)].
Defined.

(** C10 (confirmed).  [render_sprites] never writes the framebuffer: its
    pixel loop ranges over the empty [7..0], so whenever it returns, the
    screen buffer is the one it started with. *)
Theorem render_sprites_frame (e e' : Emulator) (H : render_sprites e = Some e') :
  screen_buffer e' = screen_buffer e.
Proof.
  unfold render_sprites in H.
  destruct (read_memory e LCD_CONTROL_ADDRESS) as [lcd |]; [| discriminate].
  destruct (read_memory e SCANLINE_ADDRESS) as [sl |]; [| discriminate].
  destruct (render_sprites_loop_same (if tbit lcd 2 then 16 else 8) sl e
              (rust_range 0 40) (Some e) (or_introl eq_refl)) as [E | E];
    rewrite E in H; [injection H as <-; reflexivity | discriminate].
Qed.

Lemma render_sprites_frame_witness :
  render_sprites emu0 = Some (emu_or_dummy (render_sprites emu0)) /\
  screen_buffer (emu_or_dummy (render_sprites emu0)) = screen_buffer emu0.
Proof.
  assert (H : render_sprites emu0 = Some (emu_or_dummy (render_sprites emu0)))
    by (apply returns_emu_or_dummy; vm_compute; reflexivity).
  split; [exact H | exact (render_sprites_frame emu0 _ H)].
Defined.

(* ------------------------------------------------------------------------- *)
(** * Further properties of the code *)

(** Turn boolean comparisons in the context into arithmetic facts. *)
Ltac zbool :=
  repeat match goal with
  | H : (_ && _) = true |- _ => apply andb_true_iff in H; destruct H
  | H : (_ && _) = false |- _ => apply andb_false_iff in H; destruct H as [H | H]
  | H : (_ || _) = true |- _ => apply orb_true_iff in H; destruct H as [H | H]
  | H : (_ || _) = false |- _ => apply orb_false_iff in H; destruct H
  | H : (_ <=? _) = true |- _ => apply Z.leb_le in H
  | H : (_ <=? _) = false |- _ => apply Z.leb_gt in H
  | H : (_ <? _) = true |- _ => apply Z.ltb_lt in H
  | H : (_ <? _) = false |- _ => apply Z.ltb_ge in H
  | H : (_ =? _) = true |- _ => apply Z.eqb_eq in H
  | H : (_ =? _) = false |- _ => apply Z.eqb_neq in H
  end.

(** Decide the boolean tests of a goal from arithmetic facts. *)
Ltac zdecide :=
  repeat (match goal with
          | |- context [?x <=? ?y] =>
              first [ rewrite (proj2 (Z.leb_le x y)) by lia
                    | rewrite (proj2 (Z.leb_gt x y)) by lia ]
          | |- context [?x <? ?y] =>
              first [ rewrite (proj2 (Z.ltb_lt x y)) by lia
                    | rewrite (proj2 (Z.ltb_ge x y)) by lia ]
          | |- context [?x =? ?y] =>
              first [ rewrite (proj2 (Z.eqb_eq x y)) by lia
                    | rewrite (proj2 (Z.eqb_neq x y)) by lia ]
          end; cbn [andb orb negb]).

Lemma in_rust_range (lo hi x : Z) : lo <= x < hi -> In x (rust_range lo hi).
Proof.
  intros Hx. unfold rust_range.
  rewrite (proj2 (Z.ltb_lt _ _)) by lia.
  apply in_map_iff. exists (Z.to_nat (x - lo)). split; [lia |].
  apply in_seq. lia.
Qed.

(** Facts about every byte value, checked over 0..256. *)
Lemma byte_check (P : Z -> bool) :
  forallb P (rust_range 0 256) = true -> forall d, 0 <= d < 256 -> P d = true.
Proof.
  intros H d Hd. rewrite forallb_forall in H. apply H, in_rust_range. exact Hd.
Qed.

Lemma land_E0_small (x : Z) : 0 <= x < 32 -> Z.land x 0xE0 = 0.
Proof.
  intros Hx. apply Z.eqb_eq.
  pose proof (byte_check (fun x => implb (x <? 32) (Z.land x 0xE0 =? 0))
                ltac:(vm_compute; reflexivity) x ltac:(lia)) as H.
  cbv beta in H. rewrite (proj2 (Z.ltb_lt x 32)) in H by lia. exact H.
Qed.

Lemma land_1F_range (d : Z) : 0 <= Z.land d 0x1F < 32.
Proof.
  change 0x1F with (Z.ones 5). rewrite Z.land_ones by lia.
  apply Z.mod_pos_bound. reflexivity.
Qed.

Lemma land_3_range (d : Z) : 0 <= Z.land d 0x3 < 4.
Proof.
  change 0x3 with (Z.ones 2). rewrite Z.land_ones by lia.
  apply Z.mod_pos_bound. reflexivity.
Qed.

Lemma lor_0_small (d : Z) : 0 <= d < 256 -> Z.land (Z.land d 0xF + 1) 0xE0 = 0.
Proof.
  intros Hd. apply Z.eqb_eq.
  apply (byte_check (fun d => Z.land (Z.land d 0xF + 1) 0xE0 =? 0));
    [vm_compute; reflexivity | lia].
Qed.

Lemma high_bank_large (x d : Z) :
  0 <= x < 32 -> 0x80 <= d < 256 -> 0x80 <= Z.lor x (Z.land d 0xE0).
Proof.
  intros Hx Hd.
  assert (H : forall d, 0 <= d < 256 ->
            forallb (fun x => implb (0x80 <=? d) (0x80 <=? Z.lor x (Z.land d 0xE0)))
                    (rust_range 0 32) = true).
  { apply (byte_check (fun d => forallb (fun x => implb (0x80 <=? d)
                                   (0x80 <=? Z.lor x (Z.land d 0xE0))) (rust_range 0 32))).
    vm_compute. reflexivity. }
  specialize (H d ltac:(lia)). rewrite forallb_forall in H.
  specialize (H x (in_rust_range 0 32 x Hx)).
  rewrite (proj2 (Z.leb_le 0x80 d)) in H by lia. cbn in H. apply Z.leb_le. exact H.
Qed.

(** [handle_banking] changes only bank registers and flags. *)
Lemma handle_banking_frame (m : Memory) (a d : Z) :
  rom (handle_banking m a d) = rom m /\ ram_banks (handle_banking m a d) = ram_banks m /\
  cart (handle_banking m a d) = cart m /\
  rom_bank_mode (handle_banking m a d) = rom_bank_mode m.
Proof.
  unfold handle_banking, handle_ram_bank_enable, handle_change_lo_rom_bank,
    handle_change_hi_rom_bank, handle_change_ram_bank, handle_change_rom_ram_mode,
    is_mbc, is_mbc1.
  destruct (rom_bank_mode m) eqn:Hmode; cbn;
    repeat match goal with |- context [if ?c then _ else _] => destruct c end;
    cbn; auto.
Qed.

(** [mem_read] only looks at [rom] at addresses outside the two banked
    windows. *)
Lemma mem_read_plain (m : Memory) (a : Z) :
  0 <= a < MEMORY_SIZE -> ~ (0x4000 <= a <= 0x7FFF) -> ~ (0xA000 <= a <= 0xBFFF) ->
  mem_read m a = Some (rom m a).
Proof.
  intros H1 H2 H3. unfold mem_read, MEMORY_SIZE in *.
  destruct (0x10000 <=? a) eqn:E1; zbool; [lia |].
  destruct ((0x4000 <=? a) && (a <=? 0x7FFF)) eqn:E2; zbool; try lia.
  - destruct ((0xA000 <=? a) && (a <=? 0xBFFF)) eqn:E3; zbool; try lia; reflexivity.
  - destruct ((0xA000 <=? a) && (a <=? 0xBFFF)) eqn:E3; zbool; try lia; reflexivity.
Qed.

(** A store into [rom] at [a] changes no read at another address. *)
Lemma mem_read_set_rom_other (m : Memory) (a d b : Z) :
  b <> a -> mem_read (set_rom m (upd (rom m) a d)) b = mem_read m b.
Proof.
  intros Hb. unfold mem_read. cbn.
  repeat match goal with |- context [if ?c then _ else _] => destruct c end; auto.
  unfold upd. rewrite (proj2 (Z.eqb_neq _ _) Hb). reflexivity.
Qed.

Lemma returns_mem_or_dummy (o : option Memory) :
  option_map (fun _ => tt) o = Some tt -> o = Some (mem_or_dummy o).
Proof. destruct o; simpl; congruence. Qed.

Lemma mem_write_depth_rom_low (n : nat) :
  forall m a d m', mem_write_depth n m a d = Some m' ->
  forall b, 0 <= b < 0x8000 -> rom m' b = rom m b.
Proof.
  induction n as [| n IH]; intros m a d m' H b Hb; cbn [mem_write_depth] in H;
    repeat match type of H with
           | context [if ?c then _ else _] => let E := fresh "E" in destruct c eqn:E
           end; try discriminate; zbool;
    first
      [ apply IH with (b := b) in H; [| lia]; rewrite H; cbn; unfold upd;
        destruct (b =? a) eqn:Eb; zbool; [lia | reflexivity]
      | injection H as <-; rewrite (proj1 (handle_banking_frame m a d)); reflexivity
      | injection H as <-; reflexivity
      | injection H as <-; cbn; unfold upd;
        destruct (b =? a) eqn:Eb; zbool; [lia | reflexivity] ].
Qed.

Lemma mem_reachable_rom_low (m : Memory) :
  mem_reachable m -> forall b, 0 <= b < 0x8000 -> rom m b = 0.
Proof.
  induction 1 as [c m Hnew | m a d m' _ IH Hw | m a d m' _ IH Ha Hf]; intros b Hb.
  - unfold memory_from_cartridge in Hnew.
    destruct (cartridge_read c RBM_ADDRESS) as [x |]; [| discriminate].
    repeat match type of Hnew with
           | context [if ?c then _ else _] => let E := fresh "E" in destruct c eqn:E
           end; try discriminate;
    injection Hnew as <-; cbn; unfold upd; zdecide; reflexivity.
  - rewrite (mem_write_depth_rom_low 1 m a d m' Hw b Hb). apply IH. exact Hb.
  - unfold write_force, MEMORY_SIZE in Hf.
    destruct (0x10000 <=? a); [discriminate |]. injection Hf as <-. cbn. unfold upd.
    unfold DIVIDER_REGISTER, SCANLINE_ADDRESS in Ha.
    zdecide. apply IH. exact Hb.
Qed.

Lemma mem0_reachable : mem_reachable mem0.
Proof.
  apply (mem_reachable_new (test_cart 1)).
  apply returns_mem_or_dummy. vm_compute. reflexivity.
Qed.

(** X1.  [Memory::read] serves 0x0000..0x3FFF from the internal [rom]
    array, which no write ever fills below 0x8000 (writes there are bank
    commands): in every reachable memory these addresses read 0, never the
    cartridge's bank 0. *)
Theorem rom_bank0_reads_zero (m : Memory) (a : Z) (H : mem_reachable m)
    (Ha : 0 <= a < 0x4000) :
  mem_read m a = Some 0.
Proof.
  rewrite mem_read_plain by (unfold MEMORY_SIZE; lia).
  rewrite (mem_reachable_rom_low m H a) by lia. reflexivity.
Qed.

Lemma rom_bank0_reads_zero_witness :
  mem_reachable mem0 /\ cartridge_read (cart mem0) 0 = Some 0x11 /\ mem_read mem0 0 = Some 0.
Proof.
  pose proof mem0_reachable as H.
  split; [exact H | split; [vm_compute; reflexivity |]].
  apply (rom_bank0_reads_zero mem0 0 H). lia.
Defined.

(** X2.  A write to a plain address (VRAM, work RAM, OAM, I/O other than
    DIV and LY, HRAM, IE) stores the byte: reading it back gives the byte,
    and every other address reads as before. *)
Theorem plain_write_read (m : Memory) (a d : Z) (Ha : plain_address a) :
  exists m', mem_write m a d = Some m' /\ mem_read m' a = Some d /\
             forall b, b <> a -> mem_read m' b = mem_read m b.
Proof.
  exists (set_rom m (upd (rom m) a d)). split; [| split].
  - unfold mem_write. cbn [mem_write_depth]. unfold MEMORY_SIZE.
    unfold plain_address in Ha. destruct Ha as [Ha | [Ha | [Ha | Ha]]]; zdecide; reflexivity.
  - unfold plain_address in Ha.
    rewrite mem_read_plain by (unfold MEMORY_SIZE; lia).
    cbn. unfold upd. rewrite Z.eqb_refl. reflexivity.
  - intros b Hb. apply mem_read_set_rom_other. exact Hb.
Qed.

Lemma plain_write_read_witness :
  plain_address 0xC000 /\
  exists m', mem_write mem0 0xC000 0x5A = Some m' /\ mem_read m' 0xC000 = Some 0x5A /\
             forall b, b <> 0xC000 -> mem_read m' b = mem_read mem0 b.
Proof.
  assert (H : plain_address 0xC000) by (unfold plain_address; lia).
  split; [exact H | exact (plain_write_read mem0 0xC000 0x5A H)].
Defined.

(** X3.  A write into echo RAM (0xE000..0xFDFF) stores the byte both there
    and 0x2000 lower, and changes no other address. *)
Theorem echo_write_both (m : Memory) (a d : Z) (Ha : 0xE000 <= a <= 0xFDFF) :
  exists m', mem_write m a d = Some m' /\
             mem_read m' a = Some d /\ mem_read m' (a - 0x2000) = Some d /\
             forall b, b <> a -> b <> a - 0x2000 -> mem_read m' b = mem_read m b.
Proof.
  set (m1 := set_rom m (upd (rom m) a d)).
  exists (set_rom m1 (upd (rom m1) (a - 0x2000) d)). split; [| split; [| split]].
  - unfold mem_write. cbn [mem_write_depth]. unfold MEMORY_SIZE. zdecide.
    cbn [mem_write_depth]. zdecide. reflexivity.
  - rewrite mem_read_plain by (unfold MEMORY_SIZE; lia).
    cbn. unfold upd. zdecide. reflexivity.
  - rewrite mem_read_plain by (unfold MEMORY_SIZE; lia).
    cbn. unfold upd. zdecide. reflexivity.
  - intros b Hb1 Hb2. rewrite mem_read_set_rom_other by exact Hb2.
    apply mem_read_set_rom_other. exact Hb1.
Qed.

Lemma echo_write_both_witness :
  0xE000 <= 0xE123 <= 0xFDFF /\
  exists m', mem_write mem0 0xE123 0x42 = Some m' /\
             mem_read m' 0xE123 = Some 0x42 /\ mem_read m' (0xE123 - 0x2000) = Some 0x42 /\
             forall b, b <> 0xE123 -> b <> 0xE123 - 0x2000 -> mem_read m' b = mem_read mem0 b.
Proof.
  assert (H : 0xE000 <= 0xE123 <= 0xFDFF) by lia.
  split; [exact H | exact (echo_write_both mem0 0xE123 0x42 H)].
Defined.

(** Bring a [mem_write] to the arm of [Memory::write] that [address] selects. *)
Ltac mem_write_arm :=
  unfold mem_write; cbn [mem_write_depth]; unfold MEMORY_SIZE; zdecide.

(** X4.  Writes to the restricted area 0xFEA0..0xFEFE are ignored. *)
Theorem restricted_write_noop (m : Memory) (a d : Z) (Ha : 0xFEA0 <= a <= 0xFEFE) :
  mem_write m a d = Some m.
Proof. mem_write_arm. reflexivity. Qed.

Lemma restricted_write_noop_witness :
  0xFEA0 <= 0xFEB0 <= 0xFEFE /\ mem_write mem0 0xFEB0 0x99 = Some mem0.
Proof.
  assert (H : 0xFEA0 <= 0xFEB0 <= 0xFEFE) by lia.
  split; [exact H | exact (restricted_write_noop mem0 0xFEB0 0x99 H)].
Defined.

(** X5.  Writing any byte to the divider register (0xFF04) or to the
    scanline register (0xFF44) resets it to 0 and leaves every other address
    as it was. *)
Theorem div_ly_write_resets (m : Memory) (a d : Z) (Ha : a = 0xFF04 \/ a = 0xFF44) :
  exists m', mem_write m a d = Some m' /\ mem_read m' a = Some 0 /\
             forall b, b <> a -> mem_read m' b = mem_read m b.
Proof.
  exists (set_rom m (upd (rom m) a 0)). split; [| split].
  - destruct Ha as [-> | ->]; mem_write_arm; reflexivity.
  - rewrite mem_read_plain by (unfold MEMORY_SIZE; lia).
    cbn. unfold upd. zdecide. reflexivity.
  - intros b Hb. apply mem_read_set_rom_other. exact Hb.
Qed.

Lemma div_ly_write_resets_witness :
  (0xFF44 = 0xFF04 \/ 0xFF44 = 0xFF44) /\
  exists m', mem_write mem0 0xFF44 0x37 = Some m' /\ mem_read m' 0xFF44 = Some 0 /\
             forall b, b <> 0xFF44 -> mem_read m' b = mem_read mem0 b.
Proof.
  assert (H : 0xFF44 = 0xFF04 \/ 0xFF44 = 0xFF44) by (right; reflexivity).
  split; [exact H | exact (div_ly_write_resets mem0 0xFF44 0x37 H)].
Defined.

(** X6.  Without a memory bank controller, writes to 0x0000..0x7FFF change
    nothing. *)
Theorem nombc_rom_write_noop (m : Memory) (a d : Z)
    (Hmode : rom_bank_mode m = No) (Ha : 0 <= a <= 0x7FFF) :
  mem_write m a d = Some m.
Proof.
  mem_write_arm. f_equal.
  unfold handle_banking, is_mbc, is_mbc1. rewrite Hmode.
  repeat match goal with
         | |- context [if ?c then _ else _] => destruct c
         end; reflexivity.
Qed.

Lemma nombc_rom_write_noop_witness :
  rom_bank_mode (mem_or_dummy (memory_from_cartridge (test_cart 0))) = No /\
  0 <= 0x2000 <= 0x7FFF /\
  mem_write (mem_or_dummy (memory_from_cartridge (test_cart 0))) 0x2000 0x05 =
    Some (mem_or_dummy (memory_from_cartridge (test_cart 0))).
Proof.
  assert (H1 : rom_bank_mode (mem_or_dummy (memory_from_cartridge (test_cart 0))) = No)
    by (vm_compute; reflexivity).
  assert (H2 : 0 <= 0x2000 <= 0x7FFF) by lia.
  split; [exact H1 | split; [exact H2 | exact (nombc_rom_write_noop _ 0x2000 0x05 H1 H2)]].
Defined.

(** X7.  With external RAM enabled and a RAM bank in 0..3, a write to
    0xA000..0xBFFF is read back, and the rest of that window is unchanged. *)
Theorem ext_ram_write_read (m : Memory) (a d : Z)
    (Hen : enable_ram m = true) (Hbank : 0 <= current_ram_bank m <= 3)
    (Ha : 0xA000 <= a <= 0xBFFF) :
  exists m', mem_write m a d = Some m' /\ mem_read m' a = Some d /\
             forall b, 0xA000 <= b <= 0xBFFF -> b <> a -> mem_read m' b = mem_read m b.
Proof.
  set (t := a - 0xA000 + current_ram_bank m * RAM_BANK_SIZE).
  exists (set_ram_banks m (upd (ram_banks m) t d)). split; [| split].
  - mem_write_arm. rewrite Hen. unfold MAX_RAMBANK, RAM_BANK_SIZE in *. zdecide. reflexivity.
  - unfold mem_read, MEMORY_SIZE, MAX_RAMBANK, RAM_BANK_SIZE in *. cbn. zdecide.
    unfold upd. zdecide. reflexivity.
  - intros b Hb Hba. unfold mem_read, MEMORY_SIZE, MAX_RAMBANK, RAM_BANK_SIZE in *. cbn.
    zdecide. unfold upd. zdecide. reflexivity.
Qed.

Lemma ext_ram_write_read_witness :
  exists m1, mem_write mem0 0x0000 0x0A = Some m1 /\
  enable_ram m1 = true /\ 0 <= current_ram_bank m1 <= 3 /\ 0xA000 <= 0xA010 <= 0xBFFF /\
  exists m', mem_write m1 0xA010 0x66 = Some m' /\ mem_read m' 0xA010 = Some 0x66 /\
             forall b, 0xA000 <= b <= 0xBFFF -> b <> 0xA010 -> mem_read m' b = mem_read m1 b.
Proof.
  eexists. split; [mem_write_arm; reflexivity |].
  assert (H1 : enable_ram (handle_banking mem0 0 0x0A) = true) by (vm_compute; reflexivity).
  assert (H2 : 0 <= current_ram_bank (handle_banking mem0 0 0x0A) <= 3)
    by (vm_compute; split; discriminate).
  assert (H3 : 0xA000 <= 0xA010 <= 0xBFFF) by lia.
  split; [exact H1 | split; [exact H2 | split; [exact H3 |]]].
  exact (ext_ram_write_read _ 0xA010 0x66 H1 H2 H3).
Defined.

(** X8.  With external RAM disabled, writes to 0xA000..0xBFFF change
    nothing. *)
Theorem ext_ram_disabled_noop (m : Memory) (a d : Z)
    (Hen : enable_ram m = false) (Ha : 0xA000 <= a <= 0xBFFF) :
  mem_write m a d = Some m.
Proof. mem_write_arm. rewrite Hen. reflexivity. Qed.

Lemma ext_ram_disabled_noop_witness :
  enable_ram mem0 = false /\ 0xA000 <= 0xA000 <= 0xBFFF /\ mem_write mem0 0xA000 1 = Some mem0.
Proof.
  assert (H1 : enable_ram mem0 = false) by (vm_compute; reflexivity).
  assert (H2 : 0xA000 <= 0xA000 <= 0xBFFF) by lia.
  split; [exact H1 | split; [exact H2 | exact (ext_ram_disabled_noop mem0 0xA000 1 H1 H2)]].
Defined.

Lemma handle_banking_ram_bank (m : Memory) (a d : Z) :
  0 <= current_ram_bank m <= 3 -> 0 <= current_ram_bank (handle_banking m a d) <= 3.
Proof.
  intros Hb.
  unfold handle_banking, handle_ram_bank_enable, handle_change_lo_rom_bank,
    handle_change_hi_rom_bank, handle_change_ram_bank, handle_change_rom_ram_mode.
  repeat match goal with
         | |- context [if ?c then _ else _] => destruct c
         | |- context [match rom_bank_mode m with _ => _ end] => destruct (rom_bank_mode m)
         end; cbn; try lia; pose proof (land_3_range d); lia.
Qed.

Lemma mem_write_depth_ram_bank (n : nat) :
  forall m a d m', mem_write_depth n m a d = Some m' ->
  0 <= current_ram_bank m <= 3 -> 0 <= current_ram_bank m' <= 3.
Proof.
  induction n as [| n IH]; intros m a d m' H Hb; cbn [mem_write_depth] in H;
    repeat match type of H with
           | context [if ?c then _ else _] => let E := fresh "E" in destruct c eqn:E
           end; try discriminate;
    first
      [ exact (IH _ _ _ _ H Hb)
      | injection H as <-; apply handle_banking_ram_bank; exact Hb
      | injection H as <-; exact Hb ].
Qed.

Lemma mem_reachable_ram_bank (m : Memory) :
  mem_reachable m -> 0 <= current_ram_bank m <= 3.
Proof.
  induction 1 as [c m Hnew | m a d m' _ IH Hw | m a d m' _ IH Ha Hf].
  - unfold memory_from_cartridge in Hnew.
    destruct (cartridge_read c RBM_ADDRESS) as [x |]; [| discriminate].
    repeat match type of Hnew with
           | context [if ?c then _ else _] => let E := fresh "E" in destruct c eqn:E
           end; try discriminate;
    injection Hnew as <-; cbn; lia.
  - exact (mem_write_depth_ram_bank 1 m a d m' Hw IH).
  - unfold write_force in Hf. destruct (MEMORY_SIZE <=? a); [discriminate |].
    injection Hf as <-. exact IH.
Qed.

(** X9.  In every reachable memory the selected RAM bank is 0..3, so that
    reads and writes of the external RAM window 0xA000..0xBFFF never go out
    of the bank array. *)
Theorem ext_ram_never_panics (m : Memory) (a d : Z) (H : mem_reachable m)
    (Ha : 0xA000 <= a <= 0xBFFF) :
  0 <= current_ram_bank m <= 3 /\
  (exists v, mem_read m a = Some v) /\ (exists m', mem_write m a d = Some m').
Proof.
  pose proof (mem_reachable_ram_bank m H) as Hb.
  split; [exact Hb | split].
  - unfold mem_read, MEMORY_SIZE, MAX_RAMBANK, RAM_BANK_SIZE. zdecide. eexists. reflexivity.
  - mem_write_arm. destruct (enable_ram m); [| eexists; reflexivity].
    unfold MAX_RAMBANK, RAM_BANK_SIZE. zdecide. eexists. reflexivity.
Qed.

Lemma ext_ram_never_panics_witness :
  mem_reachable mem0 /\ 0xA000 <= 0xBFFF <= 0xBFFF /\
  0 <= current_ram_bank mem0 <= 3 /\
  (exists v, mem_read mem0 0xBFFF = Some v) /\ (exists m', mem_write mem0 0xBFFF 3 = Some m').
Proof.
  pose proof mem0_reachable as H1.
  assert (H2 : 0xA000 <= 0xBFFF <= 0xBFFF) by lia.
  split; [exact H1 | split; [exact H2 | exact (ext_ram_never_panics mem0 0xBFFF 3 H1 H2)]].
Defined.

(** X10.  MBC1: a write to 0x2000..0x3FFF selects ROM bank
    [max 1 (data & 0x1F)] (when the current bank is below 0x20), and reads of
    0x4000..0x7FFF then come from that bank of the cartridge. *)
Theorem mbc1_bank_select_read (m : Memory) (a d k : Z)
    (Hmode : rom_bank_mode m = MBC1) (Hcur : 0 <= current_rom_bank m < 0x20)
    (Ha : 0x2000 <= a <= 0x3FFF) (Hk : 0 <= k < 0x4000) :
  exists m', mem_write m a d = Some m' /\
    current_rom_bank m' = Z.max 1 (Z.land d 0x1F) /\
    mem_read m' (0x4000 + k) = cartridge_read (cart m) (k + Z.max 1 (Z.land d 0x1F) * 0x4000).
Proof.
  exists (handle_change_lo_rom_bank m d).
  assert (Hbank : current_rom_bank (handle_change_lo_rom_bank m d) = Z.max 1 (Z.land d 0x1F)).
  { unfold handle_change_lo_rom_bank. rewrite Hmode. cbn.
    rewrite land_E0_small by exact Hcur. rewrite Z.lor_0_l.
    pose proof (land_1F_range d).
    destruct (Z.land d 0x1F =? 0) eqn:E; zbool; lia. }
  split; [| split].
  - mem_write_arm. f_equal. unfold handle_banking, is_mbc. rewrite Hmode.
    zdecide. reflexivity.
  - exact Hbank.
  - unfold mem_read, MEMORY_SIZE, ROM_BANK_SIZE. zdecide.
    rewrite Hbank. f_equal; [| lia].
    unfold handle_change_lo_rom_bank. rewrite Hmode. reflexivity.
Qed.

Lemma mbc1_bank_select_read_witness :
  rom_bank_mode mem0 = MBC1 /\ 0 <= current_rom_bank mem0 < 0x20 /\
  0x2000 <= 0x2000 <= 0x3FFF /\ 0 <= 0 < 0x4000 /\
  exists m', mem_write mem0 0x2000 0 = Some m' /\
    current_rom_bank m' = Z.max 1 (Z.land 0 0x1F) /\
    mem_read m' (0x4000 + 0) = cartridge_read (cart mem0) (0 + Z.max 1 (Z.land 0 0x1F) * 0x4000).
Proof.
  assert (H1 : rom_bank_mode mem0 = MBC1) by (vm_compute; reflexivity).
  assert (H2 : 0 <= current_rom_bank mem0 < 0x20) by (vm_compute; split; [discriminate | reflexivity]).
  assert (H3 : 0x2000 <= 0x2000 <= 0x3FFF) by lia.
  assert (H4 : 0 <= 0 < 0x4000) by lia.
  split; [exact H1 | split; [exact H2 | split; [exact H3 | split; [exact H4 |]]]].
  exact (mbc1_bank_select_read mem0 0x2000 0 0 H1 H2 H3 H4).
Defined.

(** X11.  MBC2: a write of a byte to 0x2000..0x3FFF selects ROM bank
    [max 1 (data & 0x1F)], whatever bank was selected before: the value
    [(data & 0xF) + 1] the code stores first is overwritten. *)
Theorem mbc2_bank_select (m : Memory) (a d : Z)
    (Hmode : rom_bank_mode m = MBC2) (Ha : 0x2000 <= a <= 0x3FFF) (Hd : 0 <= d < 256) :
  exists m', mem_write m a d = Some m' /\ current_rom_bank m' = Z.max 1 (Z.land d 0x1F).
Proof.
  exists (handle_change_lo_rom_bank m d). split.
  - mem_write_arm. f_equal. unfold handle_banking, is_mbc. rewrite Hmode.
    zdecide. reflexivity.
  - unfold handle_change_lo_rom_bank. rewrite Hmode. cbn.
    rewrite lor_0_small by exact Hd. rewrite Z.lor_0_l.
    pose proof (land_1F_range d).
    destruct (Z.land d 0x1F =? 0) eqn:E; zbool; lia.
Qed.

Lemma mbc2_bank_select_witness :
  rom_bank_mode (mem_or_dummy (memory_from_cartridge (test_cart 5))) = MBC2 /\
  0x2000 <= 0x2100 <= 0x3FFF /\ 0 <= 0x1F < 256 /\
  exists m', mem_write (mem_or_dummy (memory_from_cartridge (test_cart 5))) 0x2100 0x1F = Some m' /\
             current_rom_bank m' = Z.max 1 (Z.land 0x1F 0x1F).
Proof.
  assert (H1 : rom_bank_mode (mem_or_dummy (memory_from_cartridge (test_cart 5))) = MBC2)
    by (vm_compute; reflexivity).
  assert (H2 : 0x2000 <= 0x2100 <= 0x3FFF) by lia.
  assert (H3 : 0 <= 0x1F < 256) by lia.
  split; [exact H1 | split; [exact H2 | split; [exact H3 |]]].
  exact (mbc2_bank_select _ 0x2100 0x1F H1 H2 H3).
Defined.

(** X12.  MBC1 in ROM banking mode: a write of a byte [>= 0x80] to
    0x4000..0x5FFF selects a ROM bank [>= 0x80], whose offset lies past the
    2 MiB cartridge buffer, so every later read of 0x4000..0x7FFF panics. *)
Theorem mbc1_high_bank_read_panics (m : Memory) (a d : Z)
    (Hmode : rom_bank_mode m = MBC1) (Hrom : enable_rom m = true)
    (Ha : 0x4000 <= a <= 0x5FFF) (Hd : 0x80 <= d < 256) :
  exists m', mem_write m a d = Some m' /\
             forall k, 0 <= k < 0x4000 -> mem_read m' (0x4000 + k) = None.
Proof.
  exists (handle_change_hi_rom_bank m d). split.
  - mem_write_arm. f_equal. unfold handle_banking, is_mbc1. rewrite Hmode, Hrom.
    zdecide. reflexivity.
  - intros k Hk.
    assert (Hbank : 0x80 <= current_rom_bank (handle_change_hi_rom_bank m d)).
    { unfold handle_change_hi_rom_bank.
      pose proof (high_bank_large (Z.land (current_rom_bank m) 0x1F) d
                    (land_1F_range _) Hd) as Hl.
      destruct (_ =? 0) eqn:E; cbn; zbool; lia. }
    unfold mem_read, MEMORY_SIZE, ROM_BANK_SIZE, cartridge_read, CARTRIDGE_SIZE. zdecide.
    reflexivity.
Qed.

Lemma mbc1_high_bank_read_panics_witness :
  exists m1, mem_write mem0 0x6000 0 = Some m1 /\
  rom_bank_mode m1 = MBC1 /\ enable_rom m1 = true /\
  0x4000 <= 0x4000 <= 0x5FFF /\ 0x80 <= 0x80 < 256 /\
  exists m', mem_write m1 0x4000 0x80 = Some m' /\
             forall k, 0 <= k < 0x4000 -> mem_read m' (0x4000 + k) = None.
Proof.
  eexists. split; [mem_write_arm; reflexivity |].
  assert (H1 : rom_bank_mode (handle_banking mem0 0x6000 0) = MBC1) by (vm_compute; reflexivity).
  assert (H2 : enable_rom (handle_banking mem0 0x6000 0) = true) by (vm_compute; reflexivity).
  assert (H3 : 0x4000 <= 0x4000 <= 0x5FFF) by lia.
  assert (H4 : 0x80 <= 0x80 < 256) by lia.
  split; [exact H1 | split; [exact H2 | split; [exact H3 | split; [exact H4 |]]]].
  exact (mbc1_high_bank_read_panics _ 0x4000 0x80 H1 H2 H3 H4).
Defined.

(** X13.  MBC1, and MBC2 when address bit 4 is clear: a write to
    0x0000..0x1FFF enables external RAM when the low nibble of the byte is
    0xA, disables it when the nibble is 0, and otherwise leaves it; nothing
    else of the memory changes. *)
Theorem ram_enable_write (m : Memory) (a d : Z)
    (Hmode : rom_bank_mode m = MBC1 \/ (rom_bank_mode m = MBC2 /\ Z.land a 0x10 = 0))
    (Ha : 0 <= a <= 0x1FFF) :
  exists m', mem_write m a d = Some m' /\
    enable_ram m' = (if Z.land d 0xF =? 0xA then true
                     else if Z.land d 0xF =? 0 then false else enable_ram m) /\
    m' = set_enable_ram m (enable_ram m').
Proof.
  exists (handle_ram_bank_enable m a d).
  assert (Hsel : match rom_bank_mode m with
                 | MBC2 => negb (Z.land a 0x10 =? 0) | _ => false end = false).
  { destruct Hmode as [-> | [-> ->]]; reflexivity. }
  split; [| split].
  - mem_write_arm. f_equal. unfold handle_banking, is_mbc.
    destruct Hmode as [H | [H _]]; rewrite H; zdecide; reflexivity.
  - unfold handle_ram_bank_enable. rewrite Hsel.
    destruct (Z.land d 0xF =? 0xA); [reflexivity |].
    destruct (Z.land d 0xF =? 0); reflexivity.
  - unfold handle_ram_bank_enable. rewrite Hsel.
    destruct (Z.land d 0xF =? 0xA); [reflexivity |].
    destruct (Z.land d 0xF =? 0); [reflexivity |]. destruct m; reflexivity.
Qed.

Lemma ram_enable_write_witness :
  (rom_bank_mode mem0 = MBC1 \/ (rom_bank_mode mem0 = MBC2 /\ Z.land 0x0100 0x10 = 0)) /\
  0 <= 0x0100 <= 0x1FFF /\
  exists m', mem_write mem0 0x0100 0x3A = Some m' /\
    enable_ram m' = (if Z.land 0x3A 0xF =? 0xA then true
                     else if Z.land 0x3A 0xF =? 0 then false else enable_ram mem0) /\
    m' = set_enable_ram mem0 (enable_ram m').
Proof.
  assert (H1 : rom_bank_mode mem0 = MBC1 \/
               (rom_bank_mode mem0 = MBC2 /\ Z.land 0x0100 0x10 = 0))
    by (left; vm_compute; reflexivity).
  assert (H2 : 0 <= 0x0100 <= 0x1FFF) by lia.
  split; [exact H1 | split; [exact H2 | exact (ram_enable_write mem0 0x0100 0x3A H1 H2)]].
Defined.

(** X14.  MBC2: a write to 0x0000..0x1FFF whose address has bit 4 set is
    ignored. *)
Theorem mbc2_ram_enable_ignored (m : Memory) (a d : Z)
    (Hmode : rom_bank_mode m = MBC2) (Hbit : Z.land a 0x10 <> 0) (Ha : 0 <= a <= 0x1FFF) :
  mem_write m a d = Some m.
Proof.
  mem_write_arm. f_equal. unfold handle_banking, is_mbc. rewrite Hmode. zdecide.
  unfold handle_ram_bank_enable. rewrite Hmode.
  destruct (Z.land a 0x10 =? 0) eqn:E; [apply Z.eqb_eq in E; contradiction | reflexivity].
Qed.

Lemma mbc2_ram_enable_ignored_witness :
  rom_bank_mode (mem_or_dummy (memory_from_cartridge (test_cart 5))) = MBC2 /\
  Z.land 0x0010 0x10 <> 0 /\ 0 <= 0x0010 <= 0x1FFF /\
  mem_write (mem_or_dummy (memory_from_cartridge (test_cart 5))) 0x0010 0x0A =
    Some (mem_or_dummy (memory_from_cartridge (test_cart 5))).
Proof.
  assert (H1 : rom_bank_mode (mem_or_dummy (memory_from_cartridge (test_cart 5))) = MBC2)
    by (vm_compute; reflexivity).
  assert (H2 : Z.land 0x0010 0x10 <> 0) by (vm_compute; discriminate).
  assert (H3 : 0 <= 0x0010 <= 0x1FFF) by lia.
  split; [exact H1 | split; [exact H2 | split; [exact H3 |]]].
  exact (mbc2_ram_enable_ignored _ 0x0010 0x0A H1 H2 H3).
Defined.

Lemma mem_read_KEY (m : Memory) : mem_read m KEY_ADDRESS = Some (rom m KEY_ADDRESS).
Proof. reflexivity. Qed.

(** X15.  The joypad register as the emulator reads it: bit 4 of the byte
    stored at 0xFF00 picks the row (set: buttons A, B, Select, Start; clear:
    directions); the result is 0xFF with the other row-select bit cleared and
    the bit of every pressed input of the picked row cleared. *)
Theorem joypad_state_value (e : Emulator) (Hp : 0 <= pressed_inputs e < 256) :
  read_memory e KEY_ADDRESS =
    Some (if tbit (rom (memory e) KEY_ADDRESS) 4
          then Z.lxor 0xDF (Z.land (Z.shiftr (pressed_inputs e) 4) 0xF)
          else Z.lxor 0xEF (Z.land (pressed_inputs e) 0xF)).
Proof.
  unfold read_memory. cbn [KEY_ADDRESS Z.eqb Pos.eqb]. unfold joypad_state.
  rewrite mem_read_KEY. cbv beta iota zeta.
  destruct (tbit (rom (memory e) KEY_ADDRESS) 4); f_equal; revert Hp;
    generalize (pressed_inputs e) as p; intros p Hp; apply Z.eqb_eq; revert p Hp;
    apply byte_check; vm_compute; reflexivity.
Qed.

Lemma joypad_state_value_witness :
  0 <= pressed_inputs emu0 < 256 /\
  read_memory emu0 KEY_ADDRESS =
    Some (if tbit (rom (memory emu0) KEY_ADDRESS) 4
          then Z.lxor 0xDF (Z.land (Z.shiftr (pressed_inputs emu0) 4) 0xF)
          else Z.lxor 0xEF (Z.land (pressed_inputs emu0) 0xF)).
Proof.
  assert (H : 0 <= pressed_inputs emu0 < 256) by (vm_compute; split; [discriminate | reflexivity]).
  split; [exact H | exact (joypad_state_value emu0 H)].
Defined.

Lemma input_bits (i p : Z) : In i ALL_INPUTS -> 0 <= p < 256 ->
  Z.land (Z.land (Z.lor p i) (Z.lxor i 0xFF)) i = 0 /\
  (Z.land p i = 0 -> Z.land (Z.lor p i) (Z.lxor i 0xFF) = p).
Proof.
  intros Hi Hp.
  assert (Hc : forallb (fun i => forallb (fun p =>
             (Z.land (Z.land (Z.lor p i) (Z.lxor i 0xFF)) i =? 0) &&
             implb (Z.land p i =? 0) (Z.land (Z.lor p i) (Z.lxor i 0xFF) =? p))
             (rust_range 0 256)) ALL_INPUTS = true) by (vm_compute; reflexivity).
  rewrite forallb_forall in Hc. specialize (Hc i Hi).
  pose proof (byte_check _ Hc p Hp) as H. cbv beta in H.
  apply andb_true_iff in H as [H1 H2]. split; [apply Z.eqb_eq; exact H1 |].
  intros H0. apply Z.eqb_eq in H0. rewrite H0 in H2. apply Z.eqb_eq. exact H2.
Qed.

(** X16.  Pressing an input and releasing it: [input_down] never panics and
    sets the input's flag; [input_up] then clears that flag, and when the
    input was not pressed before, restores the pressed set exactly. *)
Theorem input_down_up (e : Emulator) (i : Z) (Hi : In i ALL_INPUTS)
    (Hp : 0 <= pressed_inputs e < 256) :
  exists e', input_down e i = Some e' /\ pressed_inputs e' = Z.lor (pressed_inputs e) i /\
    Z.land (pressed_inputs (input_up e' i)) i = 0 /\
    (Z.land (pressed_inputs e) i = 0 -> pressed_inputs (input_up e' i) = pressed_inputs e).
Proof.
  assert (Hs : exists e', input_down e i = Some e' /\
                          pressed_inputs e' = Z.lor (pressed_inputs e) i).
  { unfold input_down. rewrite mem_read_KEY. cbv beta iota zeta.
    destruct (_ && _).
    - rewrite request_interrupt_eq. eexists; split; reflexivity.
    - eexists; split; reflexivity. }
  destruct Hs as (e' & He' & Hpe). exists e'. split; [exact He' | split; [exact Hpe |]].
  destruct (input_bits i (pressed_inputs e) Hi Hp) as [H1 H2].
  unfold input_up. cbn [pressed_inputs set_pressed_inputs]. rewrite Hpe. split; assumption.
Qed.

Lemma input_down_up_witness :
  In A ALL_INPUTS /\ 0 <= pressed_inputs emu0 < 256 /\
  exists e', input_down emu0 A = Some e' /\ pressed_inputs e' = Z.lor (pressed_inputs emu0) A /\
    Z.land (pressed_inputs (input_up e' A)) A = 0 /\
    (Z.land (pressed_inputs emu0) A = 0 -> pressed_inputs (input_up e' A) = pressed_inputs emu0).
Proof.
  assert (H1 : In A ALL_INPUTS) by (cbn; tauto).
  assert (H2 : 0 <= pressed_inputs emu0 < 256) by (vm_compute; split; [discriminate | reflexivity]).
  split; [exact H1 | split; [exact H2 | exact (input_down_up emu0 A H1 H2)]].
Defined.

Lemma read_memory_TAC (e : Emulator) :
  read_memory e TIMER_CONTROLLER = Some (rom (memory e) TIMER_CONTROLLER).
Proof. reflexivity. Qed.

Lemma read_memory_TIMA (e : Emulator) :
  read_memory e TIMER_ADDRESS = Some (rom (memory e) TIMER_ADDRESS).
Proof. reflexivity. Qed.

Lemma mem_write_TAC (m : Memory) (d : Z) :
  mem_write m TIMER_CONTROLLER d = Some (set_rom m (upd (rom m) TIMER_CONTROLLER d)).
Proof. reflexivity. Qed.

(** [handle_divider_register] never panics, and its write-back leaves every
    byte of memory and the timer counter as they were. *)
Lemma handle_divider_register_some (e : Emulator) (c : Z) :
  exists e1, handle_divider_register e c = Some e1 /\
    (forall a, rom (memory e1) a = rom (memory e) a) /\ timer_counter e1 = timer_counter e.
Proof.
  unfold handle_divider_register. cbn [divider_counter set_divider_counter].
  destruct (255 <=? divider_counter e + c).
  - rewrite read_memory_DIV. cbn. eexists; split; [reflexivity |]. split; [| reflexivity].
    intros a. cbn. unfold upd.
    destruct (Z.eqb_spec a DIVIDER_REGISTER) as [-> |]; reflexivity.
  - eexists; split; [reflexivity |]. split; reflexivity.
Qed.

(** Case split on the two low bits of a byte, as [set_clock_freq] does. *)
Ltac freq_cases x :=
  pose proof (land_3_range x);
  destruct (Z.land x 3 =? 0) eqn:?; [| destruct (Z.land x 3 =? 1) eqn:?;
  [| destruct (Z.land x 3 =? 2) eqn:?; [| destruct (Z.land x 3 =? 3) eqn:?]]];
  zbool; try lia.

(** X17.  A write to TAC (0xFF07) stores the byte and reloads the timer
    counter with the period of the new frequency (1024, 16, 64 or 256
    T-states for bits 0-1 = 0, 1, 2, 3) exactly when those two bits change;
    otherwise the counter is kept. *)
Theorem tac_write_reload (e : Emulator) (d : Z) :
  exists e', write_memory e TIMER_CONTROLLER d = Some e' /\
    memory e' = set_rom (memory e) (upd (rom (memory e)) TIMER_CONTROLLER d) /\
    timer_counter e' =
      (if Z.land (rom (memory e) TIMER_CONTROLLER) 3 =? Z.land d 3 then timer_counter e
       else let f := Z.land d 3 in
            if f =? 0 then 1024 else if f =? 1 then 16 else if f =? 2 then 64 else 256).
Proof.
  unfold write_memory. cbn [write_memory_depth]. rewrite ?Z.eqb_refl.
  unfold get_clock_freq. rewrite !read_memory_TAC, mem_write_TAC.
  cbv beta iota zeta. rewrite read_memory_TAC. cbv beta iota zeta.
  cbn [memory set_memory rom set_rom]. unfold upd at 1. rewrite Z.eqb_refl.
  destruct (Z.land (rom (memory e) TIMER_CONTROLLER) 3 =? Z.land d 3); cbn [negb].
  - eexists; split; [reflexivity | split; reflexivity].
  - unfold set_clock_freq, get_clock_freq. rewrite read_memory_TAC.
    cbn [memory set_memory rom set_rom]. unfold upd. rewrite Z.eqb_refl.
    freq_cases d; (eexists; split; [reflexivity | split; reflexivity]).
Qed.

(** X18.  With the timer disabled (TAC bit 2 clear), [update_timers] only
    advances the divider: TIMA, the timer counter and IF are left alone. *)
Theorem update_timers_disabled (e : Emulator) (c : Z)
    (Hoff : Z.land (rom (memory e) TIMER_CONTROLLER) 4 = 0) :
  update_timers e c = handle_divider_register e c.
Proof.
  destruct (handle_divider_register_some e c) as (e1 & He1 & Hrom & _).
  unfold update_timers. rewrite He1.
  unfold clock_enabled. rewrite read_memory_TAC. cbv beta iota zeta.
  rewrite Hrom, Hoff. reflexivity.
Qed.

Lemma update_timers_disabled_witness :
  Z.land (rom (memory emu0) TIMER_CONTROLLER) 4 = 0 /\
  update_timers emu0 100 = handle_divider_register emu0 100.
Proof.
  assert (H : Z.land (rom (memory emu0) TIMER_CONTROLLER) 4 = 0) by (vm_compute; reflexivity).
  split; [exact H | exact (update_timers_disabled emu0 100 H)].
Defined.

(** X19.  With the timer enabled, when the timer counter runs out and TIMA
    is not 0xFF, [update_timers] increments TIMA, reloads the counter with
    the period of the selected frequency and requests no interrupt. *)
Theorem update_timers_tick (e : Emulator) (c : Z)
    (Hon : Z.land (rom (memory e) TIMER_CONTROLLER) 4 <> 0)
    (Hdue : timer_counter e - c <= 0)
    (Hv : rom (memory e) TIMER_ADDRESS <> 0xFF) :
  exists e', update_timers e c = Some e' /\
    rom (memory e') TIMER_ADDRESS = rom (memory e) TIMER_ADDRESS + 1 /\
    rom (memory e') INTERRUPT_REQUEST = rom (memory e) INTERRUPT_REQUEST /\
    timer_counter e' =
      (let f := Z.land (rom (memory e) TIMER_CONTROLLER) 3 in
       if f =? 0 then 1024 else if f =? 1 then 16 else if f =? 2 then 64 else 256).
Proof.
  destruct (handle_divider_register_some e c) as (e1 & He1 & Hrom & Htc).
  unfold update_timers. rewrite He1.
  unfold clock_enabled. rewrite read_memory_TAC. cbv beta iota zeta.
  rewrite Hrom. destruct (Z.land (rom (memory e) TIMER_CONTROLLER) 4 =? 0) eqn:E;
    [apply Z.eqb_eq in E; contradiction |]. cbn [negb].
  cbn [timer_counter set_timer_counter]. rewrite Htc. zdecide.
  unfold set_clock_freq, get_clock_freq. rewrite read_memory_TAC.
  cbn [memory set_timer_counter]. rewrite Hrom.
  freq_cases (rom (memory e) TIMER_CONTROLLER);
    cbv beta iota zeta; rewrite read_memory_TIMA; cbn [memory set_timer_counter];
    rewrite Hrom; zdecide; rewrite write_memory_TIMA;
    (eexists; split; [reflexivity |]); cbn [memory set_memory rom set_rom timer_counter];
    unfold upd; zdecide; rewrite ?Hrom; (split; [reflexivity | split; reflexivity]).
Qed.

Lemma update_timers_tick_witness :
  Z.land (rom (memory (emu_or_dummy (write_memory emu0 TIMER_CONTROLLER 0x05)))
            TIMER_CONTROLLER) 4 <> 0 /\
  timer_counter (emu_or_dummy (write_memory emu0 TIMER_CONTROLLER 0x05)) - 16 <= 0 /\
  rom (memory (emu_or_dummy (write_memory emu0 TIMER_CONTROLLER 0x05))) TIMER_ADDRESS <> 0xFF /\
  exists e', update_timers (emu_or_dummy (write_memory emu0 TIMER_CONTROLLER 0x05)) 16 = Some e' /\
    rom (memory e') TIMER_ADDRESS =
      rom (memory (emu_or_dummy (write_memory emu0 TIMER_CONTROLLER 0x05))) TIMER_ADDRESS + 1 /\
    rom (memory e') INTERRUPT_REQUEST =
      rom (memory (emu_or_dummy (write_memory emu0 TIMER_CONTROLLER 0x05))) INTERRUPT_REQUEST /\
    timer_counter e' =
      (let f := Z.land (rom (memory (emu_or_dummy (write_memory emu0 TIMER_CONTROLLER 0x05)))
                          TIMER_CONTROLLER) 3 in
       if f =? 0 then 1024 else if f =? 1 then 16 else if f =? 2 then 64 else 256).
Proof.
  assert (H1 : Z.land (rom (memory (emu_or_dummy (write_memory emu0 TIMER_CONTROLLER 0x05)))
                         TIMER_CONTROLLER) 4 <> 0) by (vm_compute; discriminate).
  assert (H2 : timer_counter (emu_or_dummy (write_memory emu0 TIMER_CONTROLLER 0x05)) - 16 <= 0)
    by (vm_compute; discriminate).
  assert (H3 : rom (memory (emu_or_dummy (write_memory emu0 TIMER_CONTROLLER 0x05)))
                 TIMER_ADDRESS <> 0xFF) by (vm_compute; discriminate).
  split; [exact H1 | split; [exact H2 | split; [exact H3 |]]].
  exact (update_timers_tick _ 16 H1 H2 H3).
Defined.

Lemma mem_write_plain_eq (m : Memory) (a d : Z) :
  plain_address a -> mem_write m a d = Some (set_rom m (upd (rom m) a d)).
Proof.
  intros Ha. mem_write_arm.
  unfold plain_address in Ha. destruct Ha as [Ha | [Ha | [Ha | Ha]]]; zdecide; reflexivity.
Qed.

Lemma read_memory_plain (e : Emulator) (a : Z) :
  plain_address a -> a <> KEY_ADDRESS -> read_memory e a = Some (rom (memory e) a).
Proof.
  intros Ha Hk. unfold read_memory, KEY_ADDRESS in *. zdecide.
  unfold plain_address in Ha. apply mem_read_plain; unfold MEMORY_SIZE; lia.
Qed.

Lemma write_memory_plain (e : Emulator) (a d : Z) :
  plain_address a -> a <> TIMER_CONTROLLER -> a <> DMA_ADDRESS ->
  write_memory e a d = Some (set_memory e (set_rom (memory e) (upd (rom (memory e)) a d))).
Proof.
  intros Ha H1 H2. unfold write_memory. cbn [write_memory_depth].
  unfold TIMER_CONTROLLER, DMA_ADDRESS in *. zdecide.
  rewrite mem_write_plain_eq by exact Ha. reflexivity.
Qed.

(** Side conditions on concrete register addresses. *)
Ltac addr_facts :=
  unfold plain_address, KEY_ADDRESS, TIMER_CONTROLLER, DMA_ADDRESS, LCD_STATUS_ADDRESS,
    LCD_CONTROL_ADDRESS, SCANLINE_ADDRESS, INTERRUPT_REQUEST, SPRITE_ATTRIBUTE_TABLE in *;
  lia.

(** A read sees only the byte at its address and the joypad register. *)
Lemma read_memory_set_rom (e : Emulator) (r : Z -> Z) (a : Z) :
  r a = rom (memory e) a -> r KEY_ADDRESS = rom (memory e) KEY_ADDRESS ->
  read_memory (set_memory e (set_rom (memory e) r)) a = read_memory e a.
Proof.
  intros Ha Hk. unfold read_memory.
  destruct (a =? 0xFF00) eqn:E.
  - unfold joypad_state. rewrite !mem_read_KEY. cbn [memory set_memory rom set_rom].
    rewrite Hk. reflexivity.
  - unfold mem_read. cbn [memory set_memory rom set_rom cart current_ram_bank
                          current_rom_bank ram_banks]. rewrite Ha. reflexivity.
Qed.

Lemma set_memory_rom_eta (e : Emulator) : e = set_memory e (set_rom (memory e) (rom (memory e))).
Proof. destruct e as [c m ? ? ? ? ? ?]; destruct m; reflexivity. Qed.

(** The loop of [dma_transfer] after [n] iterations. *)
Lemma dma_loop (e : Emulator) (d : Z) (n : nat) :
  (n <= 160)%nat ->
  forall e', fold_left
      (fun acc i =>
         let* e := acc in
         let* b := read_memory e (d * 256 + i) in
         write_memory_depth 0 e (0xFE00 + i) b)
      (map (fun k => 0 + Z.of_nat k) (seq 0 n)) (Some e) = Some e' ->
  exists r, e' = set_memory e (set_rom (memory e) r) /\
    (forall i, 0 <= i < Z.of_nat n -> read_memory e (d * 256 + i) = Some (r (0xFE00 + i))) /\
    (forall a, ~ (0xFE00 <= a < 0xFE00 + Z.of_nat n) -> r a = rom (memory e) a).
Proof.
  induction n as [| n IH]; intros Hn e' H.
  - cbn in H. injection H as <-. exists (rom (memory e)).
    split; [apply set_memory_rom_eta |]. split; [intros i Hi; lia | reflexivity].
  - rewrite seq_S, map_app, fold_left_app in H. cbn [fold_left map Nat.add] in H.
    destruct (fold_left _ (map _ (seq 0 n)) (Some e)) as [en |] eqn:Hf; [| discriminate].
    destruct (IH ltac:(lia) en eq_refl) as (r & -> & Hcopy & Hrest).
    cbv beta iota in H. rewrite ?Z.add_0_l in H. rewrite read_memory_set_rom in H.
    2: { apply Hrest. lia. }
    2: { apply Hrest. unfold KEY_ADDRESS. lia. }
    destruct (read_memory e (d * 256 + Z.of_nat n)) as [b |] eqn:Hb; [| discriminate].
    cbn [write_memory_depth] in H. unfold TIMER_CONTROLLER, DMA_ADDRESS in H.
    revert H. zdecide. rewrite mem_write_plain_eq by (unfold plain_address; lia).
    intros H. injection H as <-.
    exists (upd r (0xFE00 + Z.of_nat n) b). split; [reflexivity | split].
    + intros i Hi. unfold upd.
      destruct (Z.eqb_spec i (Z.of_nat n)) as [-> | Hne].
      * rewrite Hb. zdecide. reflexivity.
      * rewrite Hcopy by lia. zdecide. reflexivity.
    + intros a Ha. unfold upd. zdecide. apply Hrest. lia.
Qed.

(** X20.  A write of [d] to the DMA register 0xFF46 copies the 160 bytes
    read from [d * 0x100 ..] into OAM (0xFE00..0xFE9F) and changes no other
    byte of memory (the DMA register itself keeps its old value) and nothing
    else of the emulator. *)
Theorem dma_transfer_copies (e e' : Emulator) (d : Z)
    (H : write_memory e DMA_ADDRESS d = Some e') :
  (forall i, 0 <= i < 0xA0 -> read_memory e (d * 0x100 + i) = Some (rom (memory e') (0xFE00 + i))) /\
  (forall a, ~ (0xFE00 <= a < 0xFEA0) -> rom (memory e') a = rom (memory e) a) /\
  e' = set_memory e (set_rom (memory e) (rom (memory e'))).
Proof.
  unfold write_memory in H. cbn [write_memory_depth] in H.
  change (rust_range 0 0xA0) with (map (fun k => 0 + Z.of_nat k) (seq 0 160)) in H.
  rewrite Z.shiftl_mul_pow2 in H by lia. change (2 ^ 8) with 256 in H.
  destruct (dma_loop e d 160 ltac:(lia) e' H) as (r & -> & Hcopy & Hrest).
  cbn [memory set_memory rom set_rom].
  split; [| split; [| reflexivity]].
  - intros i Hi. change (0x100) with 256. apply Hcopy. lia.
  - intros a Ha. apply Hrest. lia.
Qed.

Lemma dma_transfer_copies_witness :
  write_memory emu0 DMA_ADDRESS 0xC0 = Some (emu_or_dummy (write_memory emu0 DMA_ADDRESS 0xC0)) /\
  (forall i, 0 <= i < 0xA0 ->
     read_memory emu0 (0xC0 * 0x100 + i) =
       Some (rom (memory (emu_or_dummy (write_memory emu0 DMA_ADDRESS 0xC0))) (0xFE00 + i))) /\
  (forall a, ~ (0xFE00 <= a < 0xFEA0) ->
     rom (memory (emu_or_dummy (write_memory emu0 DMA_ADDRESS 0xC0))) a = rom (memory emu0) a) /\
  emu_or_dummy (write_memory emu0 DMA_ADDRESS 0xC0) =
    set_memory emu0 (set_rom (memory emu0)
                       (rom (memory (emu_or_dummy (write_memory emu0 DMA_ADDRESS 0xC0))))).
Proof.
  assert (H : write_memory emu0 DMA_ADDRESS 0xC0 =
              Some (emu_or_dummy (write_memory emu0 DMA_ADDRESS 0xC0)))
    by (apply returns_emu_or_dummy; vm_compute; reflexivity).
  split; [exact H | exact (dma_transfer_copies _ _ _ H)].
Defined.

Lemma read_memory_LY (e : Emulator) :
  read_memory e SCANLINE_ADDRESS = Some (rom (memory e) SCANLINE_ADDRESS).
Proof. reflexivity. Qed.

Lemma maybe_request_LCD (e : Emulator) (b : bool) :
  exists r, (if b then request_interrupt e LCD else Some e) =
            Some (set_memory e (set_rom (memory e) r)) /\
            forall a, a <> INTERRUPT_REQUEST -> r a = rom (memory e) a.
Proof.
  destruct b.
  - rewrite request_interrupt_eq. eexists; split; [reflexivity |].
    intros a Ha. unfold upd. zdecide. reflexivity.
  - exists (rom (memory e)). split; [rewrite <- set_memory_rom_eta; reflexivity | reflexivity].
Qed.

(** [set_lcd_status] with the LCD on: it changes only STAT and IF; STAT
    becomes the old STAT with the coincidence bit 2 set or cleared. *)
Lemma set_lcd_status_on_eq (e : Emulator)
    (Hon : tbit (rom (memory e) LCD_CONTROL_ADDRESS) 7 = true) :
  exists r, set_lcd_status e = Some (set_memory e (set_rom (memory e) r)) /\
    (forall a, a <> LCD_STATUS_ADDRESS -> a <> INTERRUPT_REQUEST -> r a = rom (memory e) a) /\
    r LCD_STATUS_ADDRESS =
      (if rom (memory e) SCANLINE_ADDRESS =? rom (memory e) 0xFF45
       then Z.lor (rom (memory e) LCD_STATUS_ADDRESS) 0x04
       else Z.land (rom (memory e) LCD_STATUS_ADDRESS) 0xFB).
Proof.
  unfold set_lcd_status, lcd_enabled.
  rewrite !read_memory_plain by addr_facts. cbv beta iota zeta. rewrite Hon. cbn [negb].
  rewrite read_memory_LY. cbv beta iota zeta.
  match goal with
  | |- context [if ?b then request_interrupt e LCD else Some e] =>
      destruct (maybe_request_LCD e b) as (r1 & Hq & Hr1); rewrite Hq
  end.
  cbv beta iota zeta. rewrite read_memory_plain by (unfold plain_address, KEY_ADDRESS; lia).
  cbn [memory set_memory rom set_rom]. rewrite Hr1 by (unfold INTERRUPT_REQUEST; lia).
  destruct (rom (memory e) SCANLINE_ADDRESS =? rom (memory e) 0xFF45).
  - match goal with
    | |- context [if ?b then request_interrupt ?e2 LCD else Some ?e2] =>
        destruct (maybe_request_LCD e2 b) as (r2 & Hq2 & Hr2); rewrite Hq2
    end.
    cbv beta iota zeta. cbn [fst snd]. rewrite write_memory_plain by addr_facts.
    eexists; split; [reflexivity |]. cbn [memory set_memory rom set_rom] in *.
    split.
    + intros a H1 H2. unfold upd. zdecide. rewrite Hr2 by exact H2. apply Hr1. exact H2.
    + unfold upd. rewrite Z.eqb_refl. reflexivity.
  - cbv beta iota zeta. cbn [fst snd]. rewrite write_memory_plain by addr_facts.
    eexists; split; [reflexivity |]. cbn [memory set_memory rom set_rom].
    split.
    + intros a H1 H2. unfold upd. zdecide. apply Hr1. exact H2.
    + unfold upd. rewrite Z.eqb_refl. reflexivity.
Qed.

(** X21.  [set_lcd_status] with the LCD off (LCDC bit 7 clear) resets the
    scanline counter to 456 and LY to 0, writes STAT with mode bits 01, and
    changes no other byte of memory. *)
Theorem set_lcd_status_off (e : Emulator)
    (Hoff : tbit (rom (memory e) LCD_CONTROL_ADDRESS) 7 = false) :
  exists e', set_lcd_status e = Some e' /\ scanline_count e' = 456 /\
    rom (memory e') SCANLINE_ADDRESS = 0 /\
    rom (memory e') LCD_STATUS_ADDRESS =
      Z.lor (Z.land (rom (memory e) LCD_STATUS_ADDRESS) 0xFC) 1 /\
    (forall a, a <> SCANLINE_ADDRESS -> a <> LCD_STATUS_ADDRESS ->
       rom (memory e') a = rom (memory e) a).
Proof.
  unfold set_lcd_status, lcd_enabled.
  rewrite !read_memory_plain by addr_facts. cbv beta iota zeta. rewrite Hoff. cbn [negb].
  unfold write_force. cbn [memory set_scanline_count]. unfold MEMORY_SIZE, SCANLINE_ADDRESS.
  zdecide. rewrite write_memory_plain by addr_facts.
  eexists; split; [reflexivity |]. cbn [memory set_memory rom set_rom scanline_count
                                        set_scanline_count].
  split; [reflexivity | split; [| split]].
  - unfold upd, LCD_STATUS_ADDRESS. zdecide. reflexivity.
  - unfold upd. rewrite Z.eqb_refl. reflexivity.
  - intros a H1 H2. unfold upd, LCD_STATUS_ADDRESS in *. zdecide. reflexivity.
Qed.

Lemma set_lcd_status_off_witness :
  tbit (rom (memory (set_memory emu0 (set_rom (memory emu0)
          (upd (rom (memory emu0)) LCD_CONTROL_ADDRESS 0x11)))) LCD_CONTROL_ADDRESS) 7 = false /\
  exists e', set_lcd_status (set_memory emu0 (set_rom (memory emu0)
                (upd (rom (memory emu0)) LCD_CONTROL_ADDRESS 0x11))) = Some e' /\
    scanline_count e' = 456 /\
    rom (memory e') SCANLINE_ADDRESS = 0 /\
    rom (memory e') LCD_STATUS_ADDRESS =
      Z.lor (Z.land (rom (memory (set_memory emu0 (set_rom (memory emu0)
                (upd (rom (memory emu0)) LCD_CONTROL_ADDRESS 0x11)))) LCD_STATUS_ADDRESS) 0xFC) 1 /\
    (forall a, a <> SCANLINE_ADDRESS -> a <> LCD_STATUS_ADDRESS ->
       rom (memory e') a = rom (memory (set_memory emu0 (set_rom (memory emu0)
                (upd (rom (memory emu0)) LCD_CONTROL_ADDRESS 0x11)))) a).
Proof.
  assert (H : tbit (rom (memory (set_memory emu0 (set_rom (memory emu0)
          (upd (rom (memory emu0)) LCD_CONTROL_ADDRESS 0x11)))) LCD_CONTROL_ADDRESS) 7 = false)
    by (vm_compute; reflexivity).
  split; [exact H | exact (set_lcd_status_off _ H)].
Defined.

(** X22.  [set_lcd_status] with the LCD on never panics, keeps the mode bits
    0-1 of STAT as they were (the mode it computes is never written), sets
    the coincidence bit 2 exactly when LY equals LYC (0xFF45), and leaves LY
    and the scanline counter alone. *)
Theorem set_lcd_status_keeps_mode (e : Emulator)
    (Hon : tbit (rom (memory e) LCD_CONTROL_ADDRESS) 7 = true) :
  exists e', set_lcd_status e = Some e' /\
    Z.land (rom (memory e') LCD_STATUS_ADDRESS) 3 =
      Z.land (rom (memory e) LCD_STATUS_ADDRESS) 3 /\
    Z.testbit (rom (memory e') LCD_STATUS_ADDRESS) 2 =
      (rom (memory e) SCANLINE_ADDRESS =? rom (memory e) 0xFF45) /\
    rom (memory e') SCANLINE_ADDRESS = rom (memory e) SCANLINE_ADDRESS /\
    scanline_count e' = scanline_count e.
Proof.
  destruct (set_lcd_status_on_eq e Hon) as (r & -> & Hr & Hstat).
  eexists; split; [reflexivity |]. cbn [memory set_memory rom set_rom scanline_count].
  rewrite Hstat. split; [| split; [| split; [apply Hr; addr_facts | reflexivity]]].
  - destruct (_ =? _).
    + rewrite Z.land_lor_distr_l. change (Z.land 4 3) with 0. apply Z.lor_0_r.
    + rewrite <- Z.land_assoc. reflexivity.
  - destruct (_ =? _).
    + rewrite Z.lor_spec. apply orb_true_r.
    + rewrite Z.land_spec. apply andb_false_r.
Qed.

Lemma set_lcd_status_keeps_mode_witness :
  tbit (rom (memory emu0) LCD_CONTROL_ADDRESS) 7 = true /\
  exists e', set_lcd_status emu0 = Some e' /\
    Z.land (rom (memory e') LCD_STATUS_ADDRESS) 3 =
      Z.land (rom (memory emu0) LCD_STATUS_ADDRESS) 3 /\
    Z.testbit (rom (memory e') LCD_STATUS_ADDRESS) 2 =
      (rom (memory emu0) SCANLINE_ADDRESS =? rom (memory emu0) 0xFF45) /\
    rom (memory e') SCANLINE_ADDRESS = rom (memory emu0) SCANLINE_ADDRESS /\
    scanline_count e' = scanline_count emu0.
Proof.
  assert (H : tbit (rom (memory emu0) LCD_CONTROL_ADDRESS) 7 = true) by (vm_compute; reflexivity).
  split; [exact H | exact (set_lcd_status_keeps_mode emu0 H)].
Defined.

(** After [set_lcd_status] with the LCD on, the LCD is still on. *)
Lemma lcd_enabled_after_status (e : Emulator) (r : Z -> Z) :
  (forall a, a <> LCD_STATUS_ADDRESS -> a <> INTERRUPT_REQUEST -> r a = rom (memory e) a) ->
  lcd_enabled (set_memory e (set_rom (memory e) r)) =
    Some (tbit (rom (memory e) LCD_CONTROL_ADDRESS) 7).
Proof.
  intros Hr. unfold lcd_enabled. rewrite read_memory_plain by addr_facts.
  cbn [memory set_memory rom set_rom]. rewrite Hr by addr_facts. reflexivity.
Qed.

(** X23.  With the LCD on, [update_graphics] panics (u16 underflow of the
    scanline counter) when it is given more T-states than the counter
    holds; the emulator is constructed with the counter at 0. *)
Theorem update_graphics_underflow (e : Emulator) (c : Z)
    (Hon : tbit (rom (memory e) LCD_CONTROL_ADDRESS) 7 = true)
    (Hc : scanline_count e < c) :
  update_graphics e c = None.
Proof.
  destruct (set_lcd_status_on_eq e Hon) as (r & Hs & Hr & _).
  unfold update_graphics. rewrite Hs. cbv beta iota zeta.
  rewrite (lcd_enabled_after_status e r Hr), Hon. cbv beta iota zeta.
  cbn [scanline_count set_memory]. zdecide. reflexivity.
Qed.

Lemma update_graphics_underflow_witness :
  tbit (rom (memory emu0) LCD_CONTROL_ADDRESS) 7 = true /\ scanline_count emu0 < 4 /\
  update_graphics emu0 4 = None.
Proof.
  assert (H1 : tbit (rom (memory emu0) LCD_CONTROL_ADDRESS) 7 = true) by (vm_compute; reflexivity).
  assert (H2 : scanline_count emu0 < 4) by (vm_compute; reflexivity).
  split; [exact H1 | split; [exact H2 | exact (update_graphics_underflow emu0 4 H1 H2)]].
Defined.

(** X24.  With the LCD on, when the scanline counter runs out on one of the
    lines 143..153, [update_graphics] moves LY to the next line (153 wraps to
    0), reloads the counter with 456, draws nothing, and on entering line 144
    requests the VBlank interrupt (IF bit 0). *)
Theorem update_graphics_next_line (e : Emulator) (c : Z)
    (Hon : tbit (rom (memory e) LCD_CONTROL_ADDRESS) 7 = true)
    (Hc : scanline_count e = c)
    (Hl : 143 <= rom (memory e) SCANLINE_ADDRESS <= 153) :
  exists e', update_graphics e c = Some e' /\ scanline_count e' = 456 /\
    rom (memory e') SCANLINE_ADDRESS =
      (if rom (memory e) SCANLINE_ADDRESS =? 153 then 0
       else rom (memory e) SCANLINE_ADDRESS + 1) /\
    (rom (memory e) SCANLINE_ADDRESS = 143 ->
       Z.testbit (rom (memory e') INTERRUPT_REQUEST) 0 = true).
Proof.
  destruct (set_lcd_status_on_eq e Hon) as (r & Hs & Hr & _).
  assert (HLY : r SCANLINE_ADDRESS = rom (memory e) SCANLINE_ADDRESS) by (apply Hr; addr_facts).
  unfold update_graphics. rewrite Hs. cbv beta iota zeta.
  rewrite (lcd_enabled_after_status e r Hr), Hon. cbv beta iota zeta.
  cbn [scanline_count set_memory set_scanline_count]. zdecide.
  rewrite read_memory_LY. cbn [memory set_memory set_scanline_count rom set_rom].
  rewrite HLY. unfold u8_add. zdecide.
  unfold write_force, MEMORY_SIZE. cbn [memory set_memory set_scanline_count].
  unfold SCANLINE_ADDRESS at 1. zdecide.
  set (l := rom (memory e) SCANLINE_ADDRESS) in *.
  destruct (Z.eqb_spec l 143) as [H143 | H143].
  - rewrite H143. zdecide. rewrite request_interrupt_eq.
    eexists; split; [reflexivity |]. cbn [memory set_memory rom set_rom scanline_count
                                          set_scanline_count].
    split; [reflexivity | split].
    + unfold upd. zdecide. reflexivity.
    + intros _. unfold upd. rewrite Z.eqb_refl. rewrite Z.lor_spec. apply orb_true_r.
  - zdecide. destruct (Z.eqb_spec l 153) as [H153 | H153].
    + rewrite H153. zdecide. unfold SCANLINE_ADDRESS at 1. zdecide.
      eexists; split; [reflexivity |]. cbn [memory set_memory rom set_rom scanline_count
                                            set_scanline_count].
      split; [reflexivity | split; [| intros; lia]].
      unfold upd. zdecide. reflexivity.
    + zdecide. eexists; split; [reflexivity |].
      cbn [memory set_memory rom set_rom scanline_count set_scanline_count].
      split; [reflexivity | split; [| intros; lia]].
      unfold upd. zdecide. reflexivity.
Qed.

Lemma update_graphics_next_line_witness :
  tbit (rom (memory emu_line143) LCD_CONTROL_ADDRESS) 7 = true /\
  scanline_count emu_line143 = 4 /\
  143 <= rom (memory emu_line143) SCANLINE_ADDRESS <= 153 /\
  exists e', update_graphics emu_line143 4 = Some e' /\ scanline_count e' = 456 /\
    rom (memory e') SCANLINE_ADDRESS =
      (if rom (memory emu_line143) SCANLINE_ADDRESS =? 153 then 0
       else rom (memory emu_line143) SCANLINE_ADDRESS + 1) /\
    (rom (memory emu_line143) SCANLINE_ADDRESS = 143 ->
       Z.testbit (rom (memory e') INTERRUPT_REQUEST) 0 = true).
Proof.
  assert (H1 : tbit (rom (memory emu_line143) LCD_CONTROL_ADDRESS) 7 = true)
    by (vm_compute; reflexivity).
  assert (H2 : scanline_count emu_line143 = 4) by (vm_compute; reflexivity).
  assert (H3 : 143 <= rom (memory emu_line143) SCANLINE_ADDRESS <= 153)
    by (vm_compute; split; discriminate).
  split; [exact H1 | split; [exact H2 | split; [exact H3 |]]].
  exact (update_graphics_next_line emu_line143 4 H1 H2 H3).
Defined.




Lemma palette_bits (p c : Z) : 0 <= p < 256 -> 0 <= c < 4 ->
  gbit p (2 * c + 1) = Some (Z.shiftr (Z.land p (Z.shiftl 1 (2 * c + 1))) (2 * c + 1)) /\
  gbit p (2 * c) = Some (Z.shiftr (Z.land p (Z.shiftl 1 (2 * c))) (2 * c)) /\
  Z.lor (Z.shiftl (Z.shiftr (Z.land p (Z.shiftl 1 (2 * c + 1))) (2 * c + 1)) 1)
        (Z.shiftr (Z.land p (Z.shiftl 1 (2 * c))) (2 * c)) = Z.land (Z.shiftr p (2 * c)) 3.
Proof.
  intros Hp Hc. split; [| split].
  - unfold gbit. zdecide. reflexivity.
  - unfold gbit. zdecide. reflexivity.
  - apply Z.eqb_eq.
    assert (Hcase : c = 0 \/ c = 1 \/ c = 2 \/ c = 3) by lia.
    destruct Hcase as [-> | [-> | [-> | ->]]]; revert p Hp; apply byte_check;
      vm_compute; reflexivity.
Qed.

(** X26.  [get_color] decodes a palette byte: colour number [c] in 0..3
    takes bits [2c+1] and [2c] of the palette, 0 to 3 giving white, light
    grey, dark grey and black; any other colour number panics. *)
Theorem get_color_value (e : Emulator) (c address p : Z)
    (Hp : read_memory e address = Some p) (Hb : 0 <= p < 256) :
  (0 <= c < 4 ->
     get_color e c address =
       Some (let v := Z.land (Z.shiftr p (2 * c)) 3 in
             if v =? 0 then White else if v =? 1 then LightGrey
             else if v =? 2 then DarkGrey else Black)) /\
  (~ (0 <= c < 4) -> get_color e c address = None).
Proof.
  unfold get_color. rewrite Hp. cbv beta iota zeta. split; intros Hc.
  - destruct (palette_bits p c Hb Hc) as (H1 & H2 & H3).
    assert (Hhl : (if c =? 0 then Some (1, 0) else if c =? 1 then Some (3, 2)
                   else if c =? 2 then Some (5, 4) else if c =? 3 then Some (7, 6)
                   else None) = Some (2 * c + 1, 2 * c))
      by (assert (Hcase : c = 0 \/ c = 1 \/ c = 2 \/ c = 3) by lia;
          destruct Hcase as [-> | [-> | [-> | ->]]]; reflexivity).
    rewrite Hhl. cbn [fst snd]. rewrite H1, H2. cbv beta iota zeta. rewrite H3.
    freq_cases (Z.shiftr p (2 * c)); reflexivity.
  - zdecide. reflexivity.
Qed.

Lemma get_color_value_witness :
  read_memory emu0 PALETTE_47_ADDRESS = Some 0xFC /\ 0 <= 0xFC < 256 /\
  (0 <= 1 < 4 ->
     get_color emu0 1 PALETTE_47_ADDRESS =
       Some (let v := Z.land (Z.shiftr 0xFC (2 * 1)) 3 in
             if v =? 0 then White else if v =? 1 then LightGrey
             else if v =? 2 then DarkGrey else Black)) /\
  (~ (0 <= 1 < 4) -> get_color emu0 1 PALETTE_47_ADDRESS = None).
Proof.
  assert (H1 : read_memory emu0 PALETTE_47_ADDRESS = Some 0xFC) by (vm_compute; reflexivity).
  assert (H2 : 0 <= 0xFC < 256) by lia.
  split; [exact H1 | split; [exact H2 | exact (get_color_value emu0 1 PALETTE_47_ADDRESS 0xFC H1 H2)]].
Defined.

Lemma mem_write_depth_cart (n : nat) :
  forall m a d m', mem_write_depth n m a d = Some m' ->
  cart m' = cart m /\ rom_bank_mode m' = rom_bank_mode m.
Proof.
  induction n as [| n IH]; intros m a d m' H; cbn [mem_write_depth] in H;
    repeat match type of H with
           | context [if ?c then _ else _] => let E := fresh "E" in destruct c eqn:E
           end; try discriminate;
    first
      [ exact (IH _ _ _ _ H)
      | injection H as <-; destruct (handle_banking_frame m a d) as (_ & _ & Hc & Hm);
        split; assumption
      | injection H as <-; split; reflexivity ].
Qed.

(** X27.  [Memory::write] never changes the cartridge contents or the bank
    controller type. *)
Theorem mem_write_keeps_cart (m m' : Memory) (a d : Z) (H : mem_write m a d = Some m') :
  cart m' = cart m /\ rom_bank_mode m' = rom_bank_mode m.
Proof. exact (mem_write_depth_cart 1 m a d m' H). Qed.

Lemma mem_write_keeps_cart_witness :
  mem_write mem0 0x2000 0x03 = Some (handle_banking mem0 0x2000 0x03) /\
  cart (handle_banking mem0 0x2000 0x03) = cart mem0 /\
  rom_bank_mode (handle_banking mem0 0x2000 0x03) = rom_bank_mode mem0.
Proof.
  assert (H : mem_write mem0 0x2000 0x03 = Some (handle_banking mem0 0x2000 0x03))
    by (mem_write_arm; reflexivity).
  split; [exact H | exact (mem_write_keeps_cart _ _ _ _ H)].
Defined.

(** X28.  In every reachable memory, [Memory::write] panics exactly on
    addresses at or beyond 0x10000 (the echo arm's second write and the
    external RAM bank always stay in range). *)
Theorem mem_write_panics_iff (m : Memory) (a d : Z) (H : mem_reachable m) (Ha : 0 <= a) :
  mem_write m a d = None <-> 0x10000 <= a.
Proof.
  pose proof (mem_reachable_ram_bank m H) as Hb.
  split; intros Hw.
  - destruct (Z.le_gt_cases 0x10000 a) as [Hge | Hlt]; [exact Hge | exfalso].
    revert Hw. mem_write_arm. cbn [mem_write_depth]. unfold MAX_RAMBANK, RAM_BANK_SIZE.
    repeat match goal with
           | |- context [if ?c then _ else _] => let E := fresh "E" in destruct c eqn:E
           end; zbool; try lia; intros Hw; discriminate Hw.
  - mem_write_arm. reflexivity.
Qed.

Lemma mem_write_panics_iff_witness :
  mem_reachable mem0 /\ 0 <= 0x10000 /\ (mem_write mem0 0x10000 1 = None <-> 0x10000 <= 0x10000).
Proof.
  pose proof mem0_reachable as H1.
  assert (H2 : 0 <= 0x10000) by lia.
  split; [exact H1 | split; [exact H2 | exact (mem_write_panics_iff mem0 0x10000 1 H1 H2)]].
Defined.

(** X29.  In every reachable memory, [Memory::read] panics exactly on
    addresses at or beyond 0x10000 and on reads of 0x4000..0x7FFF whose
    offset in the selected ROM bank lies past the 2 MiB cartridge buffer. *)
Theorem mem_read_panics_iff (m : Memory) (a : Z) (H : mem_reachable m) (Ha : 0 <= a) :
  mem_read m a = None <->
  0x10000 <= a \/
  (0x4000 <= a <= 0x7FFF /\ CARTRIDGE_SIZE <= a - 0x4000 + current_rom_bank m * 0x4000).
Proof.
  pose proof (mem_reachable_ram_bank m H) as Hb.
  unfold mem_read, MEMORY_SIZE, ROM_BANK_SIZE, MAX_RAMBANK, RAM_BANK_SIZE, cartridge_read.
  destruct (Z.le_gt_cases 0x10000 a) as [Hge | Hlt].
  - zdecide. split; [intros _; left; exact Hge | reflexivity].
  - zdecide. destruct ((0x4000 <=? a) && (a <=? 0x7FFF)) eqn:E1.
    + zbool. unfold CARTRIDGE_SIZE.
      destruct (Z.le_gt_cases 0x200000 (a - 0x4000 + current_rom_bank m * 0x4000)).
      * zdecide. split; [intros _; right; lia | reflexivity].
      * zdecide. split; [intros Hx; discriminate Hx | lia].
    + destruct ((0xA000 <=? a) && (a <=? 0xBFFF)) eqn:E2.
      * zbool; try lia; zdecide; split; [intros Hx; discriminate Hx | lia].
      * zbool; (split; [intros Hx; discriminate Hx | lia]).
Qed.

Lemma mem_read_panics_iff_witness :
  mem_reachable mem0 /\ 0 <= 0x4000 /\
  (mem_read mem0 0x4000 = None <->
   0x10000 <= 0x4000 \/
   (0x4000 <= 0x4000 <= 0x7FFF /\ CARTRIDGE_SIZE <= 0x4000 - 0x4000 + current_rom_bank mem0 * 0x4000)).
Proof.
  pose proof mem0_reachable as H1.
  assert (H2 : 0 <= 0x4000) by lia.
  split; [exact H1 | split; [exact H2 | exact (mem_read_panics_iff mem0 0x4000 H1 H2)]].
Defined.
